(** * reflex.utils.serializers: the type-driven serializer registry

    A shallow embedding of [src/reflex/utils/serializers.py]: the two
    insertion-ordered registries [SERIALIZERS] and [SERIALIZER_TYPES], the
    [serializer] decorator (its inner [wrapper]), the two memoised
    resolution functions [get_serializer] and [get_serializer_type], and the
    entry point [serialize].

    Python dictionaries keep insertion order and the ancestor scan depends
    on it, so a dictionary is an association list with unique keys.  The
    module-level state (both dictionaries, both [functools.lru_cache] memos
    and the console) is threaded through a small state-and-exception
    monad. *)

From Stdlib Require Import List Bool Arith ZArith Lia.
From stdpp Require Import base decidable numbers strings pretty.
Import ListNotations.

Local Open Scope string_scope.
Local Open Scope list_scope.

(** * Part I: the model *)

(** ** Python dictionaries: insertion-ordered, unique keys *)

Module OrderedDict.
Section Dict.
Context {K V : Type} `{EqDecision K}.

Definition odict := list (K * V).

(** [d.get(k)] *)
Fixpoint od_get (d : odict) (k : K) : option V :=
  match d with
  | [] => None
  | (k', v) :: d' => if decide (k = k') then Some v else od_get d' k
  end.

(** [d[k] = v]: an existing key keeps its position, a new key goes last. *)
Fixpoint od_set (d : odict) (k : K) (v : V) : odict :=
  match d with
  | [] => [(k, v)]
  | (k', v') :: d' =>
      if decide (k = k') then (k', v) :: d' else (k', v') :: od_set d' k v
  end.

(** [d.keys()]; [d.items()] is the list itself. *)
Definition od_keys (d : odict) : list K := map fst d.

(** [del d[k]] (the memo uses it to move an entry to the front). *)
Fixpoint od_del (d : odict) (k : K) : odict :=
  match d with
  | [] => []
  | (k', v) :: d' => if decide (k = k') then d' else (k', v) :: od_del d' k
  end.

End Dict.
Arguments odict : clear implicits.
End OrderedDict.
Import OrderedDict.

(** ** [functools.lru_cache] (default [maxsize=128], one positional key) *)

Module LruCache.
Section Lru.
Context {K V : Type} `{EqDecision K}.

(** The memo, most recently used entry first. *)
Definition cache := odict K V.

Definition maxsize : nat := 128.

(** A call of the decorated function: a hit returns the stored result and
    makes the entry the most recent one; a miss calls the user function,
    stores the result and evicts the least recently used entry when the
    memo is full. *)
Definition lru_call (user_function : K -> V) (key : K) (c : cache) : V * cache :=
  match od_get c key with
  | Some result => (result, (key, result) :: od_del c key)
  | None =>
      let result := user_function key in
      (result, firstn maxsize ((key, result) :: c))
  end.

(** [cache_clear()] *)
Definition cache_clear : cache := [].

(** Every stored result is what the user function returns now. *)
Definition fresh (user_function : K -> V) (c : cache) : Prop :=
  forall k v, In (k, v) c -> v = user_function k.

End Lru.
Arguments cache : clear implicits.
End LruCache.
Import LruCache.

(** ** Python types, values, exceptions and functions *)

(** A type object.  The built-in classes the module mentions are
    constructors; any other class is identified by its qualified name and
    carries whether it has [__dataclass_fields__]. *)
Inductive pytype : Type :=
| TNoneType | TBool | TInt | TFloat | TStr | TList | TTuple | TSet | TDict
| TType
| TClass (qualname : string) (dataclass : bool).

#[global] Instance pytype_eq_dec : EqDecision pytype.
Proof. solve_decision. Defined.

(** A runtime value, as far as [serialize] looks at it.  [VObject cls attrs]
    is an instance of class [cls]; for an instance of a dataclass, [attrs]
    lists the pairs [(k.name, getattr(value, k.name))] for [k] in
    [dataclasses.fields(value)], in field order. *)
#[warnings="-register-all"]
Inductive value : Type :=
| VNone
| VBool (b : bool)
| VInt (z : Z)
| VStr (s : string)
| VList (l : list value)
| VTuple (l : list value)
| VDict (d : list (string * value))
| VType (t : pytype)
| VObject (cls : pytype) (attrs : list (string * value)).

(** [type(value)] *)
Definition type_of (v : value) : pytype :=
  match v with
  | VNone => TNoneType
  | VBool _ => TBool
  | VInt _ => TInt
  | VStr _ => TStr
  | VList _ => TList
  | VTuple _ => TTuple
  | VDict _ => TDict
  | VType _ => TType
  | VObject cls _ => cls
  end.

(** [isinstance(value, type)] *)
Definition isinstance_type (v : value) : bool :=
  match v with VType _ => true | _ => false end.

(** [hasattr(cls, "__dataclass_fields__")] *)
Definition has_dataclass_fields (cls : pytype) : bool :=
  match cls with TClass _ dc => dc | _ => false end.

(** [dataclasses.is_dataclass(obj)]: looks at [obj] itself when it is a
    class and at [type(obj)] otherwise. *)
Definition is_dataclass (obj : value) : bool :=
  let cls := match obj with VType t => t | _ => type_of obj end in
  has_dataclass_fields cls.

(** [[(k.name, getattr(value, k.name)) for k in dataclasses.fields(value)]] *)
Definition dataclass_items (v : value) : list (string * value) :=
  match v with VObject _ attrs => attrs | _ => [] end.

(** [{name: x for name, x in items}] *)
Definition dict_of_items (items : list (string * value)) : odict string value :=
  fold_left (fun d kv => od_set d (fst kv) (snd kv)) items [].

Inductive exn : Type :=
| ValueError (msg : string)
| KeyError (key : string)
| Raised (what : string).

Inductive result (A : Type) : Type :=
| Ok (a : A)
| Raise (e : exn).
Arguments Ok {A} a.
Arguments Raise {A} e.

(** A function object.  [fn_id] is the object's identity, which is what
    [==] and [!=] compare on functions; [parameters] lists the parameter
    names with their annotation, if any; [call] is the body, which may
    raise. *)
Record function : Type := mkFunction {
  fn_id : positive;
  __module__ : string;
  __qualname__ : string;
  parameters : list (string * option pytype);
  return_annotation : option pytype;
  call : value -> result value
}.

(** The parameters that carry an annotation, with it. *)
Definition annotated_parameters (fn : function) : list (string * pytype) :=
  flat_map (fun p => match snd p with Some t => [(fst p, t)] | None => [] end)
    (parameters fn).

(** [registered_fn != fn] *)
Definition fn_ne (f g : function) : bool :=
  negb (bool_decide (fn_id f = fn_id g)).

(** [typing.get_type_hints(fn)]: the annotated parameters in order, then
    ["return"] when the return type is annotated.  A [function] carries
    its annotations already resolved to types, so this is the dictionary
    the call returns when it returns; a call that raises instead (a name
    in an annotation that cannot be resolved, an object that is no
    function) leaves [wrapper] at its first statement and is not a
    [function] of this model. *)
Definition get_type_hints (fn : function) : odict string pytype :=
  let hints :=
    fold_left
      (fun d p => match snd p with Some t => od_set d (fst p) t | None => d end)
      (parameters fn) [] in
  match return_annotation fn with
  | Some t => od_set hints "return" t
  | None => hints
  end.

(** The name of a class and [str(type_)] as the f-string prints it for a
    class (a union such as [date | datetime | time | timedelta] is no
    class and no [pytype]). *)
Definition type_name (t : pytype) : string :=
  match t with
  | TNoneType => "NoneType"
  | TBool => "bool"
  | TInt => "int"
  | TFloat => "float"
  | TStr => "str"
  | TList => "list"
  | TTuple => "tuple"
  | TSet => "set"
  | TDict => "dict"
  | TType => "type"
  | TClass qualname _ => qualname
  end.

Definition type_str (t : pytype) : string :=
  "<class '" +:+ type_name t +:+ "'>".

(** The frame [inspect] finds for the first caller outside this file. *)
Record frame : Type := mkFrame {
  filename : string;
  lineno : N
}.

(** ** Module state and the monad it is threaded through *)

Record state : Type := mkState {
  SERIALIZERS : odict pytype function;
  SERIALIZER_TYPES : odict pytype pytype;
  get_serializer_cache : cache pytype (option function);
  get_serializer_type_cache : cache pytype (option pytype);
  console : list string
}.

(** The module right after its two dictionaries are created. *)
Definition initial_state : state :=
  mkState [] [] cache_clear cache_clear [].

Definition M (A : Type) : Type := state -> result A * state.

Definition ret {A} (a : A) : M A := fun st => (Ok a, st).

Definition raise {A} (e : exn) : M A := fun st => (Raise e, st).

Definition bind {A B} (m : M A) (k : A -> M B) : M B :=
  fun st =>
    match m st with
    | (Ok a, st') => k a st'
    | (Raise e, st') => (Raise e, st')
    end.

Notation "x <- m ;; k" := (bind m (fun x => k))
  (at level 100, m at next level, right associativity).
Notation "m ;;; k" := (bind m (fun _ => k))
  (at level 100, right associativity).

Definition gets {A} (f : state -> A) : M A := fun st => (Ok (f st), st).

Definition modify (f : state -> state) : M unit := fun st => (Ok tt, f st).

(** [SERIALIZERS[type_] = fn] *)
Definition set_serializer (type_ : pytype) (fn : function) (st : state) : state :=
  mkState (od_set (SERIALIZERS st) type_ fn) (SERIALIZER_TYPES st)
          (get_serializer_cache st) (get_serializer_type_cache st) (console st).

(** [SERIALIZER_TYPES[type_] = to_type] *)
Definition set_serializer_type (type_ to_type : pytype) (st : state) : state :=
  mkState (SERIALIZERS st) (od_set (SERIALIZER_TYPES st) type_ to_type)
          (get_serializer_cache st) (get_serializer_type_cache st) (console st).

(** [get_serializer.cache_clear()] *)
Definition clear_get_serializer (st : state) : state :=
  mkState (SERIALIZERS st) (SERIALIZER_TYPES st)
          cache_clear (get_serializer_type_cache st) (console st).

(** [get_serializer_type.cache_clear()] *)
Definition clear_get_serializer_type (st : state) : state :=
  mkState (SERIALIZERS st) (SERIALIZER_TYPES st)
          (get_serializer_cache st) cache_clear (console st).

(** [console.warn(msg)]: the message is recorded on the console. *)
Definition log_warning (msg : string) (st : state) : state :=
  mkState (SERIALIZERS st) (SERIALIZER_TYPES st)
          (get_serializer_cache st) (get_serializer_type_cache st)
          (console st ++ [msg]).

Definition console_warn (msg : string) : M unit := modify (log_warning msg).

(** ** The registry operations *)

Section Serializers.

(** [reflex.utils.types._issubclass(cls, cls_check)]: defined in another
    module of the package; the registry only calls it, so it is a parameter
    here. *)
Variable _issubclass : pytype -> pytype -> bool.

(** The loop [for registered_type, serializer in reversed(d.items())]: the
    first item whose key [type_] is a subclass of. *)
Definition first_ancestor {V} (d : odict pytype V) (type_ : pytype)
  : option (pytype * V) :=
  find (fun item => _issubclass type_ (fst item)) (rev d).

(** The body shared by [get_serializer] and [get_serializer_type]: an exact
    lookup, then the scan, which returns the value of the item it stops
    at. *)
Definition resolve {V} (d : odict pytype V) (type_ : pytype) : option V :=
  match od_get d type_ with
  | Some serializer => Some serializer
  | None => option_map snd (first_ancestor d type_)
  end.

(** The undecorated functions ([get_serializer.__wrapped__] and
    [get_serializer_type.__wrapped__]), reading the global dictionary. *)
Definition get_serializer_wrapped (st : state) (type_ : pytype) : option function :=
  resolve (SERIALIZERS st) type_.

Definition get_serializer_type_wrapped (st : state) (type_ : pytype) : option pytype :=
  resolve (SERIALIZER_TYPES st) type_.

(** [get_serializer(type_)], through its memo. *)
Definition get_serializer (type_ : pytype) : M (option function) :=
  fun st =>
    let (r, c) := lru_call (get_serializer_wrapped st) type_ (get_serializer_cache st) in
    (Ok r, mkState (SERIALIZERS st) (SERIALIZER_TYPES st)
                   c (get_serializer_type_cache st) (console st)).

(** [get_serializer_type(type_)], through its memo. *)
Definition get_serializer_type (type_ : pytype) : M (option pytype) :=
  fun st =>
    let (r, c) :=
      lru_call (get_serializer_type_wrapped st) type_ (get_serializer_type_cache st) in
    (Ok r, mkState (SERIALIZERS st) (SERIALIZER_TYPES st)
                   (get_serializer_cache st) c (console st)).

(** The message of the conflict error and of the warning. *)
Definition overwrite_message (type_ : pytype) (registered_fn fn : function) : string :=
  "Overwriting serializer for type " +:+ type_str type_ +:+ " from "
  +:+ __module__ registered_fn +:+ ":" +:+ __qualname__ registered_fn
  +:+ " to " +:+ __module__ fn +:+ ":" +:+ __qualname__ fn +:+ ".".

Definition file_info (caller_frame : option frame) : string :=
  match caller_frame with
  | Some f => "(at " +:+ filename f +:+ ":" +:+ pretty (lineno f) +:+ ")"
  | None => ""
  end.

Definition warning_text (message : string) (caller_frame : option frame) : string :=
  message +:+ " Call rx.serializer with `overwrite=True` if this is intentional. "
  +:+ file_info caller_frame.

(** The names in [type_hints] other than ["return"]. *)
Definition hinted_args (type_hints : odict string pytype) : list string :=
  List.filter (fun arg => negb (bool_decide (arg = "return"))) (od_keys type_hints).

(** The type a function gets registered under: [type_hints[args[0]]] when
    [args] holds exactly one name. *)
Definition registered_type_of (fn : function) : option pytype :=
  match hinted_args (get_type_hints fn) with
  | [arg] => od_get (get_type_hints fn) arg
  | _ => None
  end.

(** [to or type_hints.get("return")]: a type object is truthy. *)
Definition output_type (to : option pytype) (type_hints : odict string pytype)
  : option pytype :=
  match to with
  | Some t => Some t
  | None => od_get type_hints "return"
  end.

(** The inner [wrapper(fn)] of [serializer(fn, to, overwrite)].
    [caller_frame] is what the frame search would find. *)
Definition wrapper (to : option pytype) (overwrite : option bool)
    (caller_frame : option frame) (fn : function) : M function :=
  let type_hints := get_type_hints fn in
  let args := hinted_args type_hints in
  if negb (length args =? 1)%nat then
    raise (ValueError "Serializer must take a single argument.")
  else
    match od_get type_hints (hd "" args) with
    | None => raise (KeyError (hd "" args))
    | Some type_ =>
        registered_fn <- gets (fun st => od_get (SERIALIZERS st) type_) ;;
        match registered_fn with
        | Some registered_fn =>
            if fn_ne registered_fn fn && negb (bool_decide (overwrite = Some true)) then
              let message := overwrite_message type_ registered_fn fn in
              if bool_decide (overwrite = Some false) then
                raise (ValueError message)
              else
                console_warn (warning_text message caller_frame)
            else ret tt
        | None => ret tt
        end ;;;
        let to_type := output_type to type_hints in
        match to_type with
        | Some to_type =>
            modify (set_serializer_type type_ to_type) ;;;
            modify clear_get_serializer_type
        | None => ret tt
        end ;;;
        modify (set_serializer type_ fn) ;;;
        modify clear_get_serializer ;;;
        ret fn
    end.

(** The four statements that end a successful [wrapper] call, as one state
    change: the output type, when there is one, is stored and its memo
    cleared; then the function is stored and its memo cleared. *)
Definition store_registration (type_ : pytype) (to_type : option pytype)
    (fn : function) (st : state) : state :=
  clear_get_serializer
    (set_serializer type_ fn
       (match to_type with
        | Some to_type => clear_get_serializer_type (set_serializer_type type_ to_type st)
        | None => st
        end)).

(** [serializer(fn, to, overwrite)]: applied to a function it registers it;
    without one it returns the decorator. *)
Definition serializer (fn : option function) (to : option pytype)
    (overwrite : option bool) (caller_frame : option frame)
  : M function + (function -> M function) :=
  match fn with
  | Some fn => inl (wrapper to overwrite caller_frame fn)
  | None => inr (wrapper to overwrite caller_frame)
  end.

(** The second component of the paired result. *)
Definition type_value (t : option pytype) : value :=
  match t with Some t => VType t | None => VNone end.

(** [serialize(value, get_type)] *)
Definition serialize (v : value) (get_type : bool) : M value :=
  serializer <- get_serializer (type_of v) ;;
  match serializer with
  | None =>
      if is_dataclass v && negb (isinstance_type v) then
        ret (VDict (dict_of_items (dataclass_items v)))
      else if get_type then ret (VTuple [VNone; VNone])
      else ret VNone
  | Some serializer =>
      serialized <- (fun st => (call serializer v, st)) ;;
      if get_type then
        t <- get_serializer_type (type_of v) ;;
        ret (VTuple [serialized; type_value t])
      else ret serialized
  end.

(** [has_serializer(type_, into_type)]: [and] and [or] short-circuit, so
    [get_serializer_type] is called only when a function was found and
    [into_type] is given. *)
Definition has_serializer (type_ : pytype) (into_type : option pytype) : M bool :=
  serializer_for_type <- get_serializer type_ ;;
  match serializer_for_type with
  | None => ret false
  | Some _ =>
      match into_type with
      | None => ret true
      | Some into_type =>
          t <- get_serializer_type type_ ;;
          ret (bool_decide (t = Some into_type))
      end
  end.

(** [can_serialize(type_, into_type)] *)
Definition can_serialize (type_ : pytype) (into_type : option pytype) : M bool :=
  registered <- has_serializer type_ into_type ;;
  if registered then ret true
  else
    ret (isinstance_type (VType type_)
         && is_dataclass (VType type_)
         && match into_type with
            | None => true
            | Some into_type => bool_decide (into_type = TDict)
            end).

(** The states the module can be in: it starts empty and changes only
    through registrations and (memoised) queries. *)
Inductive reachable : state -> Prop :=
| reach_initial : reachable initial_state
| reach_wrapper to overwrite caller_frame fn st :
    reachable st -> reachable (snd (wrapper to overwrite caller_frame fn st))
| reach_get_serializer type_ st :
    reachable st -> reachable (snd (get_serializer type_ st))
| reach_get_serializer_type type_ st :
    reachable st -> reachable (snd (get_serializer_type type_ st))
| reach_serialize v get_type st :
    reachable st -> reachable (snd (serialize v get_type st)).

(** No function is registered for [type_] or for a type it is a subclass
    of. *)
Definition unregistered (st : state) (type_ : pytype) : Prop :=
  od_get (SERIALIZERS st) type_ = None
  /\ forall registered_type fn,
       In (registered_type, fn) (SERIALIZERS st) ->
       _issubclass type_ registered_type = false.

(** Both memos agree with the dictionaries as they are now. *)
Definition coherent (st : state) : Prop :=
  fresh (get_serializer_wrapped st) (get_serializer_cache st)
  /\ fresh (get_serializer_type_wrapped st) (get_serializer_type_cache st).

End Serializers.

(** ** A small class hierarchy and registry to evaluate the model on *)

Module Sample.

(** [class Animal], [class Pet(Animal)], [class Dog(Animal)],
    [class Labrador(Dog, Pet)], and the dataclass [Point] with fields
    [x] and [y]. *)
Definition Animal : pytype := TClass "zoo.Animal" false.
Definition Pet : pytype := TClass "zoo.Pet" false.
Definition Dog : pytype := TClass "zoo.Dog" false.
Definition Labrador : pytype := TClass "zoo.Labrador" false.
Definition Point : pytype := TClass "geometry.Point" true.

Definition mro (cls : pytype) : list pytype :=
  if decide (cls = Labrador) then [Labrador; Dog; Pet; Animal]
  else if decide (cls = Dog) then [Dog; Animal]
  else if decide (cls = Pet) then [Pet; Animal]
  else [cls].

Definition issubclass (cls cls_check : pytype) : bool :=
  existsb (fun c => bool_decide (c = cls_check)) (mro cls).

(** [def serialize_animal(value: Animal) -> str] and its siblings. *)
Definition serialize_animal : function :=
  mkFunction 1 "zoo" "serialize_animal" [("value", Some Animal)] (Some TStr)
    (fun _ => Ok (VStr "animal")).

Definition serialize_pet : function :=
  mkFunction 2 "zoo" "serialize_pet" [("value", Some Pet)] (Some TStr)
    (fun _ => Ok (VStr "pet")).

(** [def serialize_dog(value: Dog)]: no return annotation. *)
Definition serialize_dog : function :=
  mkFunction 3 "zoo" "serialize_dog" [("value", Some Dog)] None
    (fun _ => Ok (VStr "dog")).

(** Another function for [Dog], defined in another module. *)
Definition kennel_serialize_dog : function :=
  mkFunction 4 "kennel" "serialize_dog" [("value", Some Dog)] None
    (fun _ => Ok (VStr "kennel dog")).

(** [def serialize_pair(a: int, b)]: two parameters, one annotated.  Called
    with one argument it raises [TypeError]. *)
Definition serialize_pair : function :=
  mkFunction 5 "zoo" "serialize_pair" [("a", Some TInt); ("b", None)] None
    (fun _ => Raise (Raised "TypeError: missing 1 required positional argument: 'b'")).

(** [@serializer(to=str) def serialize_labrador(value: Labrador)] *)
Definition serialize_labrador : function :=
  mkFunction 6 "zoo" "serialize_labrador" [("value", Some Labrador)] None
    (fun v => match v with
              | VObject _ (("name", VStr n) :: _) => Ok (VStr n)
              | _ => Raise (Raised "AttributeError: name")
              end).

Definition register (fn : function) (st : state) : state :=
  snd (wrapper None None None fn st).

(** The registry after registering, in this order, the functions for
    [Animal], [Pet] and [Dog]. *)
Definition zoo : state :=
  register serialize_dog (register serialize_pet (register serialize_animal initial_state)).

(** The same registry after the query [get_serializer_type(Labrador)]. *)
Definition zoo_queried : state :=
  snd (get_serializer_type issubclass Labrador zoo).

(** The same registry after the query [get_serializer(Dog)]. *)
Definition zoo_dog_queried : state :=
  snd (get_serializer issubclass Dog zoo).

(** Another function for [Pet], defined in another module. *)
Definition kennel_serialize_pet : function :=
  mkFunction 7 "kennel" "serialize_pet" [("value", Some Pet)] None
    (fun _ => Ok (VStr "kennel pet")).

(** [def serialize_plain(value)]: one parameter, not annotated. *)
Definition serialize_plain : function :=
  mkFunction 8 "zoo" "serialize_plain" [("value", None)] (Some TStr)
    (fun _ => Ok (VStr "plain")).

(** [def serialize_tagged(tag, value: Pet, sep) -> dict]: the annotated
    parameter is the second of three. *)
Definition serialize_tagged : function :=
  mkFunction 9 "zoo" "serialize_tagged"
    [("tag", None); ("value", Some Pet); ("sep", None)] (Some TDict)
    (fun _ => Raise (Raised "TypeError: missing 2 required positional arguments")).

(** The registry with only [Animal] and [Dog] registered, in this order. *)
Definition kennel : state :=
  register serialize_dog (register serialize_animal initial_state).

(** The sample registry after [serialize_tagged] (declared [-> dict]) has
    replaced the function for [Pet]. *)
Definition zoo_retyped : state :=
  snd (wrapper None (Some true) None serialize_tagged zoo).

(** The sample registry after [@serializer(to=str)] on
    [serialize_labrador]. *)
Definition zoo_labrador : state :=
  snd (wrapper (Some TStr) None None serialize_labrador zoo).

(** [Point(x=1, y="a")] and a [Labrador] instance. *)
Definition point : value := VObject Point [("x", VInt 1); ("y", VStr "a")].

Definition rex : value := VObject Labrador [("name", VStr "Rex")].

End Sample.

(** * Part II: properties *)

(** ** Dictionary facts *)

Module OrderedDictFacts.
Section Facts.
Context {K V : Type} `{EqDecision K}.
Implicit Types (d : odict K V) (k : K) (v : V).

Lemma od_get_set_eq d k v : od_get (od_set d k v) k = Some v.
Proof.
  induction d as [|[k' v'] d IH]; simpl.
  - destruct (decide (k = k)); congruence.
  - destruct (decide (k = k')) as [->|Hne]; simpl.
    + destruct (decide (k' = k')); congruence.
    + destruct (decide (k = k')); [contradiction|exact IH].
Qed.

Lemma od_get_set_ne d k k' v : k <> k' -> od_get (od_set d k v) k' = od_get d k'.
Proof.
  intros Hne. induction d as [|[k0 v0] d IH]; simpl.
  - destruct (decide (k' = k)); congruence.
  - destruct (decide (k = k0)) as [->|Hk]; simpl.
    + destruct (decide (k' = k0)); congruence.
    + destruct (decide (k' = k0)); [reflexivity|exact IH].
Qed.

Lemma od_keys_set_present d k v :
  od_get d k <> None -> od_keys (od_set d k v) = od_keys d.
Proof.
  unfold od_keys. induction d as [|[k' v'] d IH]; simpl; intros H.
  - congruence.
  - destruct (decide (k = k')); simpl; [reflexivity|].
    f_equal. apply IH, H.
Qed.

Lemma od_set_absent d k v : od_get d k = None -> od_set d k v = d ++ [(k, v)].
Proof.
  induction d as [|[k' v'] d IH]; simpl; intros H; [reflexivity|].
  destruct (decide (k = k')); [discriminate|].
  f_equal. apply IH, H.
Qed.

Lemma od_get_In d k v : od_get d k = Some v -> In (k, v) d.
Proof.
  induction d as [|[k' v'] d IH]; simpl; [discriminate|].
  destruct (decide (k = k')) as [->|]; intros H.
  - left. congruence.
  - right. apply IH, H.
Qed.

Lemma od_get_None_not_In d k v : od_get d k = None -> ~ In (k, v) d.
Proof.
  induction d as [|[k' v'] d IH]; simpl; intros H; [tauto|].
  destruct (decide (k = k')); [discriminate|].
  intros [E|HI]; [congruence|]. exact (IH H HI).
Qed.

Lemma od_del_In d k x : In x (od_del d k) -> In x d.
Proof.
  induction d as [|[k' v'] d IH]; simpl; [tauto|].
  destruct (decide (k = k')); simpl; [tauto|].
  intros [E|HI]; [left; exact E|right; apply IH, HI].
Qed.

Lemma od_del_length d k v : In (k, v) d -> S (length (od_del d k)) = length d.
Proof.
  induction d as [|[k' v'] d IH]; simpl; [tauto|].
  destruct (decide (k = k')) as [->|Hne]; [reflexivity|].
  intros [Heq|HI]; [congruence|]. simpl. f_equal. apply IH, HI.
Qed.

(** A scan whose test reads only the key finds the same key in two
    dictionaries with the same key sequence. *)
Lemma find_key_same_keys (p : K -> bool) (l1 l2 : odict K V) :
  map fst l1 = map fst l2 ->
  option_map fst (find (fun item => p (fst item)) l1)
  = option_map fst (find (fun item => p (fst item)) l2).
Proof.
  revert l2. induction l1 as [|[k1 v1] l1 IH]; intros [|[k2 v2] l2]; simpl;
    try discriminate; [reflexivity|].
  intros Heq. injection Heq as -> Hrest.
  destruct (p k2); simpl; [reflexivity|]. apply IH, Hrest.
Qed.

Lemma find_skip_prefix (p : K * V -> bool) (l1 l2 : odict K V) :
  (forall x, In x l1 -> p x = false) -> find p (l1 ++ l2) = find p l2.
Proof.
  induction l1 as [|x l1 IH]; simpl; intros Hall; [reflexivity|].
  rewrite (Hall x (or_introl eq_refl)). apply IH.
  intros y Hy. apply Hall. right. exact Hy.
Qed.

End Facts.
End OrderedDictFacts.
Import OrderedDictFacts.

(** ** Memo facts *)

Module LruCacheFacts.
Section Facts.
Context {K V : Type} `{EqDecision K}.
Implicit Types (f : K -> V) (c : cache K V).

Lemma fresh_clear f : fresh f cache_clear.
Proof. intros k v []. Qed.

Lemma fresh_ext f g c : (forall k, f k = g k) -> fresh f c -> fresh g c.
Proof. intros Hfg Hc k v HI. rewrite <- Hfg. apply Hc, HI. Qed.

(** With a fresh memo, the decorated function returns what the undecorated
    one does. *)
Lemma lru_call_result f k c : fresh f c -> fst (lru_call f k c) = f k.
Proof.
  intros Hc. unfold lru_call.
  destruct (od_get c k) as [r|] eqn:E; simpl; [|reflexivity].
  apply Hc, od_get_In, E.
Qed.

Lemma In_firstn {A} (n : nat) (l : list A) x : In x (firstn n l) -> In x l.
Proof.
  revert n. induction l as [|y l IH]; intros [|n]; simpl; try tauto.
  intros [->|HI]; [left; reflexivity|right; eapply IH, HI].
Qed.

Lemma lru_call_fresh f k c : fresh f c -> fresh f (snd (lru_call f k c)).
Proof.
  intros Hc. unfold lru_call.
  destruct (od_get c k) as [r|] eqn:E; cbn [snd].
  - intros k' v' [Heq|HI].
    + inversion Heq; subst. apply Hc, od_get_In, E.
    + apply Hc. eapply od_del_In, HI.
  - intros k' v' HI. apply In_firstn in HI. destruct HI as [Heq|HI].
    + inversion Heq; subst. reflexivity.
    + apply Hc, HI.
Qed.

(** The memo never outgrows [maxsize]. *)
Lemma lru_call_length f k c :
  length c <= maxsize -> length (snd (lru_call f k c)) <= maxsize.
Proof.
  intros Hlen. unfold lru_call.
  destruct (od_get c k) as [r|] eqn:E; cbn [snd].
  - apply od_get_In, od_del_length in E. simpl. lia.
  - rewrite length_firstn. lia.
Qed.

End Facts.
End LruCacheFacts.
Import LruCacheFacts.

(** ** The registration path *)

Section RegistrationFacts.
Implicit Types (st : state) (fn : function) (to : option pytype)
  (overwrite : option bool) (caller_frame : option frame).

Lemma od_get_key (d : odict string pytype) (k : string) :
  In k (od_keys d) -> od_get d k <> None.
Proof.
  unfold od_keys. induction d as [|[k' v'] d IH]; simpl; [tauto|].
  destruct (decide (k = k')); [discriminate|].
  intros [E|HI]; [congruence|apply IH, HI].
Qed.

Lemma registered_type_of_Some fn type_ :
  registered_type_of fn = Some type_ ->
  exists arg, hinted_args (get_type_hints fn) = [arg]
              /\ od_get (get_type_hints fn) arg = Some type_.
Proof.
  unfold registered_type_of.
  destruct (hinted_args (get_type_hints fn)) as [|arg [|arg' rest]]; try discriminate.
  intros H. exists arg. split; [reflexivity|exact H].
Qed.

(** One hinted name always has its hint: [type_hints[args[0]]] cannot fail. *)
Lemma registered_type_of_single fn arg :
  hinted_args (get_type_hints fn) = [arg] -> registered_type_of fn <> None.
Proof.
  intros Hargs. unfold registered_type_of. rewrite Hargs.
  apply od_get_key.
  assert (HI : In arg (hinted_args (get_type_hints fn))) by (rewrite Hargs; left; reflexivity).
  unfold hinted_args in HI. apply filter_In in HI. tauto.
Qed.

(** A function whose hints do not name exactly one argument is refused
    before anything is touched. *)
Lemma wrapper_arity_error to overwrite caller_frame fn st :
  length (hinted_args (get_type_hints fn)) <> 1 ->
  wrapper to overwrite caller_frame fn st
  = (Raise (ValueError "Serializer must take a single argument."), st).
Proof.
  intros Hlen. unfold wrapper.
  destruct (length (hinted_args (get_type_hints fn)) =? 1)%nat eqn:E.
  - apply Nat.eqb_eq in E. contradiction.
  - reflexivity.
Qed.

(** What [wrapper] does once the argument type is known. *)
Lemma wrapper_cases to overwrite caller_frame fn st type_ :
  registered_type_of fn = Some type_ ->
  wrapper to overwrite caller_frame fn st =
  let to_type := output_type to (get_type_hints fn) in
  match od_get (SERIALIZERS st) type_ with
  | Some registered_fn =>
      if fn_ne registered_fn fn && negb (bool_decide (overwrite = Some true)) then
        if bool_decide (overwrite = Some false) then
          (Raise (ValueError (overwrite_message type_ registered_fn fn)), st)
        else
          (Ok fn,
           store_registration type_ to_type fn
             (log_warning
                (warning_text (overwrite_message type_ registered_fn fn) caller_frame)
                st))
      else (Ok fn, store_registration type_ to_type fn st)
  | None => (Ok fn, store_registration type_ to_type fn st)
  end.
Proof.
  intros Hty. destruct (registered_type_of_Some _ _ Hty) as (arg & Hargs & Hget).
  unfold wrapper. rewrite Hargs. cbn [length Nat.eqb negb hd]. rewrite Hget.
  unfold bind, gets, modify, ret, raise, console_warn, store_registration.
  cbn zeta.
  destruct (od_get (SERIALIZERS st) type_) as [registered_fn|]; cbn beta iota.
  - destruct (fn_ne registered_fn fn && negb (bool_decide (overwrite = Some true)));
      [destruct (bool_decide (overwrite = Some false))|];
      destruct (output_type to (get_type_hints fn)); reflexivity.
  - destruct (output_type to (get_type_hints fn)); reflexivity.
Qed.

(** A call that raises leaves the whole module state as it was. *)
Lemma wrapper_raise_unchanged to overwrite caller_frame fn st e :
  fst (wrapper to overwrite caller_frame fn st) = Raise e ->
  snd (wrapper to overwrite caller_frame fn st) = st.
Proof.
  destruct (Nat.eq_dec (length (hinted_args (get_type_hints fn))) 1) as [Hlen|Hlen].
  - destruct (hinted_args (get_type_hints fn)) as [|arg [|? ?]] eqn:Hargs;
      try discriminate.
    destruct (registered_type_of fn) as [type_|] eqn:Hty;
      [|exfalso; eapply registered_type_of_single; eauto].
    rewrite (wrapper_cases _ _ _ _ _ _ Hty). cbn zeta.
    destruct (od_get (SERIALIZERS st) type_) as [registered_fn|]; [|discriminate].
    destruct (fn_ne registered_fn fn && negb (bool_decide (overwrite = Some true)));
      [destruct (bool_decide (overwrite = Some false))|]; try discriminate.
    reflexivity.
  - rewrite wrapper_arity_error by exact Hlen. reflexivity.
Qed.

(** A call that returns has stored the function; only the console may
    differ from the state the four final statements start from. *)
Lemma wrapper_ok_inv to overwrite caller_frame fn st r st' :
  wrapper to overwrite caller_frame fn st = (Ok r, st') ->
  exists type_ st0,
    registered_type_of fn = Some type_ /\ r = fn
    /\ st' = store_registration type_ (output_type to (get_type_hints fn)) fn st0
    /\ (st0 = st \/ exists msg, st0 = log_warning msg st).
Proof.
  intros Hw.
  destruct (Nat.eq_dec (length (hinted_args (get_type_hints fn))) 1) as [Hlen|Hlen].
  - destruct (hinted_args (get_type_hints fn)) as [|arg [|? ?]] eqn:Hargs;
      try discriminate.
    destruct (registered_type_of fn) as [type_|] eqn:Hty;
      [|exfalso; eapply registered_type_of_single; eauto].
    rewrite (wrapper_cases _ _ _ _ _ _ Hty) in Hw. cbn zeta in Hw.
    exists type_.
    destruct (od_get (SERIALIZERS st) type_) as [registered_fn|].
    + destruct (fn_ne registered_fn fn && negb (bool_decide (overwrite = Some true)));
        [destruct (bool_decide (overwrite = Some false))|]; try discriminate;
        injection Hw as <- <-; eexists; eauto 6.
    + injection Hw as <- <-. eexists; eauto 6.
  - rewrite wrapper_arity_error in Hw by exact Hlen. discriminate.
Qed.

End RegistrationFacts.

(** ** Resolution and the coherence of the memos *)

Section ResolutionFacts.
Variable _issubclass : pytype -> pytype -> bool.
Implicit Types (st : state).

Lemma get_serializer_eq type_ st :
  let call := lru_call (get_serializer_wrapped _issubclass st) type_
                (get_serializer_cache st) in
  get_serializer _issubclass type_ st =
  (Ok (fst call),
   mkState (SERIALIZERS st) (SERIALIZER_TYPES st)
     (snd call) (get_serializer_type_cache st) (console st)).
Proof.
  unfold get_serializer. cbn zeta.
  destruct (lru_call _ type_ (get_serializer_cache st)). reflexivity.
Qed.

Lemma get_serializer_type_eq type_ st :
  let call := lru_call (get_serializer_type_wrapped _issubclass st) type_
                (get_serializer_type_cache st) in
  get_serializer_type _issubclass type_ st =
  (Ok (fst call),
   mkState (SERIALIZERS st) (SERIALIZER_TYPES st) (get_serializer_cache st)
     (snd call) (console st)).
Proof.
  unfold get_serializer_type. cbn zeta.
  destruct (lru_call _ type_ (get_serializer_type_cache st)). reflexivity.
Qed.

(** Queries never touch the dictionaries or the console. *)
Lemma get_serializer_registry type_ st :
  SERIALIZERS (snd (get_serializer _issubclass type_ st)) = SERIALIZERS st
  /\ SERIALIZER_TYPES (snd (get_serializer _issubclass type_ st)) = SERIALIZER_TYPES st
  /\ console (snd (get_serializer _issubclass type_ st)) = console st.
Proof. rewrite get_serializer_eq. auto. Qed.

Lemma get_serializer_type_registry type_ st :
  SERIALIZERS (snd (get_serializer_type _issubclass type_ st)) = SERIALIZERS st
  /\ SERIALIZER_TYPES (snd (get_serializer_type _issubclass type_ st)) = SERIALIZER_TYPES st
  /\ console (snd (get_serializer_type _issubclass type_ st)) = console st.
Proof. rewrite get_serializer_type_eq. auto. Qed.

(** In a coherent state the memoised functions return what the undecorated
    ones compute from the dictionaries. *)
Lemma get_serializer_coherent type_ st :
  coherent _issubclass st ->
  fst (get_serializer _issubclass type_ st)
  = Ok (get_serializer_wrapped _issubclass st type_).
Proof.
  intros [Hf _]. rewrite get_serializer_eq. cbn [fst].
  f_equal. apply lru_call_result, Hf.
Qed.

Lemma get_serializer_type_coherent type_ st :
  coherent _issubclass st ->
  fst (get_serializer_type _issubclass type_ st)
  = Ok (get_serializer_type_wrapped _issubclass st type_).
Proof.
  intros [_ Ht]. rewrite get_serializer_type_eq. cbn [fst].
  f_equal. apply lru_call_result, Ht.
Qed.

Lemma coherent_get_serializer type_ st :
  coherent _issubclass st -> coherent _issubclass (snd (get_serializer _issubclass type_ st)).
Proof.
  intros [Hf Ht]. rewrite get_serializer_eq. split; cbn.
  - apply (lru_call_fresh (get_serializer_wrapped _issubclass st)), Hf.
  - exact Ht.
Qed.

Lemma coherent_get_serializer_type type_ st :
  coherent _issubclass st ->
  coherent _issubclass (snd (get_serializer_type _issubclass type_ st)).
Proof.
  intros [Hf Ht]. rewrite get_serializer_type_eq. split; cbn.
  - exact Hf.
  - apply (lru_call_fresh (get_serializer_type_wrapped _issubclass st)), Ht.
Qed.

Lemma coherent_log_warning msg st :
  coherent _issubclass st -> coherent _issubclass (log_warning msg st).
Proof. intros [Hf Ht]. split; assumption. Qed.

(** Registration restores coherence by clearing: the function memo always,
    the output-type memo whenever the output-type dictionary changes. *)
Lemma coherent_store_registration type_ to_type fn st :
  coherent _issubclass st -> coherent _issubclass (store_registration type_ to_type fn st).
Proof.
  intros [Hf Ht]. split.
  - apply fresh_clear.
  - destruct to_type as [t|]; cbn.
    + apply fresh_clear.
    + exact Ht.
Qed.

Lemma coherent_wrapper to overwrite caller_frame fn st :
  coherent _issubclass st ->
  coherent _issubclass (snd (wrapper to overwrite caller_frame fn st)).
Proof.
  intros Hc.
  destruct (wrapper to overwrite caller_frame fn st) as [[r|e] st'] eqn:Hw.
  - apply wrapper_ok_inv in Hw.
    destruct Hw as (type_ & st0 & _ & _ & -> & [->|[msg ->]]); cbn [snd];
      apply coherent_store_registration; [exact Hc|].
    apply coherent_log_warning, Hc.
  - assert (Hst : snd (wrapper to overwrite caller_frame fn st) = st).
    { eapply wrapper_raise_unchanged. rewrite Hw. reflexivity. }
    rewrite Hw in Hst. cbn [snd] in *. subst st'. exact Hc.
Qed.

Lemma coherent_serialize v get_type st :
  coherent _issubclass st -> coherent _issubclass (snd (serialize _issubclass v get_type st)).
Proof.
  intros Hc. unfold serialize, bind.
  pose proof (coherent_get_serializer (type_of v) st Hc) as Hc1.
  rewrite get_serializer_eq in *. cbn [fst snd] in *.
  set (st1 := mkState _ _ _ _ _) in *.
  destruct (fst (lru_call _ _ _)) as [s|].
  - destruct (call s v) as [serialized|e]; [|exact Hc1].
    destruct get_type; [|exact Hc1].
    pose proof (coherent_get_serializer_type (type_of v) st1 Hc1) as Hc2.
    rewrite get_serializer_type_eq in *. exact Hc2.
  - destruct (is_dataclass v && negb (isinstance_type v)); [exact Hc1|].
    destruct get_type; exact Hc1.
Qed.

(** The invariant: every state the module can reach is coherent. *)
Lemma reachable_coherent st : reachable _issubclass st -> coherent _issubclass st.
Proof.
  induction 1 as [|to overwrite caller_frame fn st _ IH|type_ st _ IH
                  |type_ st _ IH|v get_type st _ IH].
  - split; apply fresh_clear.
  - apply coherent_wrapper, IH.
  - apply coherent_get_serializer, IH.
  - apply coherent_get_serializer_type, IH.
  - apply coherent_serialize, IH.
Qed.

End ResolutionFacts.

(** ** The registry's contract *)

Section Contract.
Variable _issubclass : pytype -> pytype -> bool.
Implicit Types (st : state) (fn : function) (to : option pytype)
  (overwrite : option bool) (caller_frame : option frame).

Lemma find_all_false {A} (p : A -> bool) (l : list A) :
  (forall x, In x l -> p x = false) -> find p l = None.
Proof.
  induction l as [|x l IH]; simpl; intros Hall; [reflexivity|].
  rewrite (Hall x (or_introl eq_refl)). apply IH.
  intros y Hy. apply Hall. right. exact Hy.
Qed.

Lemma unregistered_resolve st type_ :
  unregistered _issubclass st type_ ->
  get_serializer_wrapped _issubclass st type_ = None.
Proof.
  intros [Hget Hscan]. unfold get_serializer_wrapped, resolve, first_ancestor.
  rewrite Hget, find_all_false; [reflexivity|].
  intros [registered_type fn] HI. apply in_rev in HI. cbn [fst].
  eapply Hscan, HI.
Qed.

(** C1. When [SERIALIZERS] has an entry for exactly [type_],
    [get_serializer(type_)] returns that entry's function, whatever other
    registered types [type_] is a subclass of. *)
Theorem get_serializer_exact_match st type_ fn :
  reachable _issubclass st ->
  od_get (SERIALIZERS st) type_ = Some fn ->
  fst (get_serializer _issubclass type_ st) = Ok (Some fn).
Proof.
  intros Hr Hget. rewrite get_serializer_coherent by apply reachable_coherent, Hr.
  unfold get_serializer_wrapped, resolve. rewrite Hget. reflexivity.
Qed.

(** C2, amended. When [type_] has no exact entry and [B] is the most
    recently inserted key that [type_] is a subclass of (no key inserted
    after [B] is an ancestor), [get_serializer(type_)] returns [B]'s
    function, whichever ancestors were inserted before [B]. *)
Theorem get_serializer_latest_ancestor st type_ B fnB earlier later :
  reachable _issubclass st ->
  od_get (SERIALIZERS st) type_ = None ->
  SERIALIZERS st = earlier ++ (B, fnB) :: later ->
  _issubclass type_ B = true ->
  (forall C fnC, In (C, fnC) later -> _issubclass type_ C = false) ->
  fst (get_serializer _issubclass type_ st) = Ok (Some fnB).
Proof.
  intros Hr Hget Hsplit HB Hlater.
  rewrite get_serializer_coherent by apply reachable_coherent, Hr.
  unfold get_serializer_wrapped, resolve, first_ancestor. rewrite Hget, Hsplit.
  rewrite rev_app_distr. cbn [rev]. rewrite <- app_assoc.
  rewrite find_skip_prefix.
  - cbn. rewrite HB. reflexivity.
  - intros [C fnC] HI. apply in_rev in HI. cbn [fst]. eapply Hlater, HI.
Qed.

(** C3, amended. Registering [fn] for a type that already has an entry.
    When the entry holds a different function: with [overwrite=False] the
    call raises the [ValueError] that names both functions and changes
    nothing; with [overwrite=True] it stores [fn] and writes nothing on the
    console; with [overwrite=None] it stores [fn] and writes one warning
    that names both functions.  When the entry holds [fn] itself
    ([registered_fn != fn] is false): whatever [overwrite] is, the call
    returns [fn], stores it again and writes nothing on the console. *)
Theorem overwrite_semantics to caller_frame fn st type_ registered_fn :
  registered_type_of fn = Some type_ ->
  od_get (SERIALIZERS st) type_ = Some registered_fn ->
  let message := overwrite_message type_ registered_fn fn in
  let to_type := output_type to (get_type_hints fn) in
  (fn_id registered_fn <> fn_id fn ->
   wrapper to (Some false) caller_frame fn st = (Raise (ValueError message), st)
   /\ (exists st',
         wrapper to (Some true) caller_frame fn st = (Ok fn, st')
         /\ st' = store_registration type_ to_type fn st
         /\ od_get (SERIALIZERS st') type_ = Some fn
         /\ console st' = console st)
   /\ (exists st',
         wrapper to None caller_frame fn st = (Ok fn, st')
         /\ st' = store_registration type_ to_type fn
                    (log_warning (warning_text message caller_frame) st)
         /\ od_get (SERIALIZERS st') type_ = Some fn
         /\ console st' = console st ++ [warning_text message caller_frame]))
  /\ (fn_id registered_fn = fn_id fn ->
      forall overwrite,
      exists st',
        wrapper to overwrite caller_frame fn st = (Ok fn, st')
        /\ st' = store_registration type_ to_type fn st
        /\ od_get (SERIALIZERS st') type_ = Some fn
        /\ console st' = console st).
Proof.
  intros Hty Hget message to_type.
  assert (Hstored : forall st0,
             od_get (SERIALIZERS (store_registration type_ to_type fn st0)) type_
             = Some fn).
  { intros st0. destruct to_type; cbn; apply od_get_set_eq. }
  assert (Hconsole : forall st0,
             console (store_registration type_ to_type fn st0) = console st0).
  { intros st0. destruct to_type; reflexivity. }
  split.
  - intros Hne.
    assert (Hfn : fn_ne registered_fn fn = true).
    { unfold fn_ne. rewrite bool_decide_eq_false_2 by exact Hne. reflexivity. }
    split; [|split].
    + rewrite (wrapper_cases _ _ _ _ _ _ Hty), Hget, Hfn. reflexivity.
    + eexists. split; [|split; [reflexivity|split]].
      * rewrite (wrapper_cases _ _ _ _ _ _ Hty), Hget, Hfn. reflexivity.
      * apply Hstored.
      * apply Hconsole.
    + eexists. split; [|split; [reflexivity|split]].
      * rewrite (wrapper_cases _ _ _ _ _ _ Hty), Hget, Hfn. reflexivity.
      * apply Hstored.
      * rewrite Hconsole. reflexivity.
  - intros Hsame overwrite.
    assert (Hfn : fn_ne registered_fn fn = false).
    { unfold fn_ne. rewrite bool_decide_eq_true_2 by exact Hsame. reflexivity. }
    eexists. split; [|split; [reflexivity|split]].
    + rewrite (wrapper_cases _ _ _ _ _ _ Hty), Hget, Hfn. reflexivity.
    + apply Hstored.
    + apply Hconsole.
Qed.

(** C4, amended. A successful registration always clears the memo of
    [get_serializer]; it clears the memo of [get_serializer_type] when an
    output type is declared, and otherwise leaves that memo and
    [SERIALIZER_TYPES] as they were.  Either way every later query returns
    what the dictionaries hold after the registration. *)
Theorem registration_invalidates_memos to overwrite caller_frame fn st fn' st' :
  reachable _issubclass st ->
  wrapper to overwrite caller_frame fn st = (Ok fn', st') ->
  get_serializer_cache st' = cache_clear
  /\ (output_type to (get_type_hints fn) <> None ->
      get_serializer_type_cache st' = cache_clear)
  /\ (output_type to (get_type_hints fn) = None ->
      get_serializer_type_cache st' = get_serializer_type_cache st
      /\ SERIALIZER_TYPES st' = SERIALIZER_TYPES st)
  /\ forall type_,
       fst (get_serializer _issubclass type_ st')
       = Ok (get_serializer_wrapped _issubclass st' type_)
       /\ fst (get_serializer_type _issubclass type_ st')
          = Ok (get_serializer_type_wrapped _issubclass st' type_).
Proof.
  intros Hr Hw.
  assert (Hc : coherent _issubclass st').
  { change st' with (snd (Ok fn', st')). rewrite <- Hw.
    apply coherent_wrapper, reachable_coherent, Hr. }
  apply wrapper_ok_inv in Hw.
  destruct Hw as (type_ & st0 & _ & _ & -> & Hst0).
  split; [reflexivity|]. split; [|split].
  - destruct (output_type to (get_type_hints fn)); [reflexivity|congruence].
  - intros ->. destruct Hst0 as [->|[msg ->]]; split; reflexivity.
  - intros T. split.
    + apply get_serializer_coherent, Hc.
    + apply get_serializer_type_coherent, Hc.
Qed.

(** *** [serialize] *)

Lemma serialize_not_found v get_type st :
  coherent _issubclass st ->
  get_serializer_wrapped _issubclass st (type_of v) = None ->
  fst (serialize _issubclass v get_type st) =
  Ok (if is_dataclass v && negb (isinstance_type v)
      then VDict (dict_of_items (dataclass_items v))
      else if get_type then VTuple [VNone; VNone] else VNone).
Proof.
  intros [Hf _] Hnone. unfold serialize, bind.
  rewrite get_serializer_eq, (lru_call_result _ _ _ Hf), Hnone.
  destruct (is_dataclass v && negb (isinstance_type v)); [reflexivity|].
  destruct get_type; reflexivity.
Qed.

Lemma serialize_found v get_type st serializer :
  coherent _issubclass st ->
  get_serializer_wrapped _issubclass st (type_of v) = Some serializer ->
  fst (serialize _issubclass v get_type st) =
  match call serializer v with
  | Ok serialized =>
      Ok (if get_type
          then VTuple [serialized;
                       type_value (get_serializer_type_wrapped _issubclass st (type_of v))]
          else serialized)
  | Raise e => Raise e
  end.
Proof.
  intros Hc Hsome. unfold serialize, bind.
  pose proof (coherent_get_serializer _issubclass (type_of v) st Hc) as Hc1.
  destruct Hc as [Hf _].
  rewrite get_serializer_eq in *. rewrite (lru_call_result _ _ _ Hf), Hsome.
  cbn [snd] in Hc1. set (st1 := mkState _ _ _ _ _) in *.
  destruct (call serializer v) as [serialized|e]; [|reflexivity].
  destruct get_type; [|reflexivity].
  pose proof (get_serializer_type_coherent _issubclass (type_of v) st1 Hc1) as Ht.
  destruct (get_serializer_type _issubclass (type_of v) st1) as [[t|e] st2];
    cbn [fst] in Ht; [|discriminate].
  injection Ht as ->. reflexivity.
Qed.

Lemma od_get_not_key {V} (d : odict string V) (k : string) :
  ~ In k (od_keys d) -> od_get d k = None.
Proof.
  unfold od_keys. induction d as [|[k' v'] d IH]; simpl; [reflexivity|].
  intros Hnot. destruct (decide (k = k')) as [->|]; [tauto|]. apply IH. tauto.
Qed.

Lemma fold_od_set_append (items acc : odict string value) :
  List.NoDup (od_keys items) ->
  (forall k, In k (od_keys items) -> ~ In k (od_keys acc)) ->
  fold_left (fun d kv => od_set d (fst kv) (snd kv)) items acc = acc ++ items.
Proof.
  revert acc. induction items as [|[k v] items IH]; intros acc Hnd Hdisj; cbn.
  - rewrite app_nil_r. reflexivity.
  - cbn in Hnd. apply NoDup_cons_iff in Hnd. destruct Hnd as [Hk Hnd].
    rewrite od_set_absent.
    + rewrite IH; [rewrite <- app_assoc; reflexivity|exact Hnd|].
      intros k' Hk'. unfold od_keys. rewrite map_app, in_app_iff. cbn.
      intros [Hacc|[->|[]]].
      * apply (Hdisj k'); [right; exact Hk'|exact Hacc].
      * exact (Hk Hk').
    + apply od_get_not_key, Hdisj. left. reflexivity.
Qed.

(** Fields with distinct names make a dictionary with the same items. *)
Lemma dict_of_items_distinct (items : list (string * value)) :
  List.NoDup (map fst items) -> dict_of_items items = items.
Proof.
  intros Hnd. unfold dict_of_items. rewrite fold_od_set_append; auto.
Qed.

(** C7. For an instance of a dataclass (its field names are distinct) whose
    type resolves to no function, [serialize(value)] returns the dictionary
    from each field name to the field's value as it is. *)
Theorem serialize_dataclass_fallback st cls attrs :
  reachable _issubclass st ->
  has_dataclass_fields cls = true ->
  List.NoDup (map fst attrs) ->
  unregistered _issubclass st cls ->
  fst (serialize _issubclass (VObject cls attrs) false st) = Ok (VDict attrs).
Proof.
  intros Hr Hdc Hnd Hun.
  rewrite serialize_not_found.
  - unfold is_dataclass. cbn [type_of isinstance_type dataclass_items negb].
    rewrite Hdc. cbn [andb]. rewrite dict_of_items_distinct by exact Hnd. reflexivity.
  - apply reachable_coherent, Hr.
  - apply unregistered_resolve, Hun.
Qed.

(** C8. For a value whose type resolves to no function and which is not a
    dataclass instance, [serialize(value)] returns [None]: the call
    returns, it does not raise. *)
Theorem serialize_absent st v :
  reachable _issubclass st ->
  unregistered _issubclass st (type_of v) ->
  is_dataclass v && negb (isinstance_type v) = false ->
  fst (serialize _issubclass v false st) = Ok VNone.
Proof.
  intros Hr Hun Hplain.
  rewrite serialize_not_found.
  - rewrite Hplain. reflexivity.
  - apply reachable_coherent, Hr.
  - apply unregistered_resolve, Hun.
Qed.

Lemma get_type_hints_return fn t :
  return_annotation fn = Some t -> od_get (get_type_hints fn) "return" = Some t.
Proof.
  intros Hret. unfold get_type_hints. rewrite Hret. apply od_get_set_eq.
Qed.

(** C9. After [fn] is registered for [type_] with output type [str], given
    as [to=str] or, without [to], as the return annotation,
    [serialize(v, get_type=True)] for a value whose type is exactly
    [type_] returns the pair of [fn(v)] and [str] (and raises what [fn(v)]
    raises). *)
Theorem declared_output_type_roundtrip
    to overwrite caller_frame fn st fn' st' type_ v :
  reachable _issubclass st ->
  wrapper to overwrite caller_frame fn st = (Ok fn', st') ->
  registered_type_of fn = Some type_ ->
  to = Some TStr \/ (to = None /\ return_annotation fn = Some TStr) ->
  type_of v = type_ ->
  fst (serialize _issubclass v true st') =
  match call fn v with
  | Ok serialized => Ok (VTuple [serialized; VType TStr])
  | Raise e => Raise e
  end.
Proof.
  intros Hr Hw Hty Hto Hv.
  assert (Hc : coherent _issubclass st').
  { change st' with (snd (Ok fn', st')). rewrite <- Hw.
    apply coherent_wrapper, reachable_coherent, Hr. }
  assert (Hout : output_type to (get_type_hints fn) = Some TStr).
  { destruct Hto as [->|[-> Hret]]; [reflexivity|].
    cbn. apply get_type_hints_return, Hret. }
  apply wrapper_ok_inv in Hw.
  destruct Hw as (type_' & st0 & Hty' & _ & Hst' & _).
  rewrite Hty in Hty'. injection Hty' as <-. rewrite Hout in Hst'.
  rewrite (serialize_found v true st' fn Hc).
  - replace (get_serializer_type_wrapped _issubclass st' (type_of v)) with (Some TStr);
      [reflexivity|].
    unfold get_serializer_type_wrapped, resolve. rewrite Hv, Hst'. cbn.
    rewrite od_get_set_eq. reflexivity.
  - unfold get_serializer_wrapped, resolve. rewrite Hv, Hst'. cbn.
    rewrite od_get_set_eq. reflexivity.
Qed.

(** C10. Registering a function for a type that already has an entry keeps
    the key sequence of [SERIALIZERS], so for every queried type the
    reverse scan stops at the same registered type as before. *)
Theorem overwrite_keeps_position to overwrite caller_frame fn st fn' st' type_ :
  wrapper to overwrite caller_frame fn st = (Ok fn', st') ->
  registered_type_of fn = Some type_ ->
  od_get (SERIALIZERS st) type_ <> None ->
  od_keys (SERIALIZERS st') = od_keys (SERIALIZERS st)
  /\ forall queried,
       option_map fst (first_ancestor _issubclass (SERIALIZERS st') queried)
       = option_map fst (first_ancestor _issubclass (SERIALIZERS st) queried).
Proof.
  intros Hw Hty Hreg.
  apply wrapper_ok_inv in Hw.
  destruct Hw as (type_' & st0 & Hty' & _ & -> & Hst0).
  rewrite Hty in Hty'. injection Hty' as <-.
  assert (Hkeys : od_keys (SERIALIZERS (store_registration type_
                     (output_type to (get_type_hints fn)) fn st0))
                  = od_keys (SERIALIZERS st)).
  { assert (Hst : SERIALIZERS st0 = SERIALIZERS st)
      by (destruct Hst0 as [->|[msg ->]]; reflexivity).
    destruct (output_type to (get_type_hints fn)); cbn; rewrite Hst;
      apply od_keys_set_present, Hreg. }
  split; [exact Hkeys|].
  intros queried. unfold first_ancestor.
  apply (find_key_same_keys (_issubclass queried)).
  rewrite !map_rev. f_equal. exact Hkeys.
Qed.

End Contract.

(** ** The contract on the sample registry *)

Lemma zoo_reachable : reachable Sample.issubclass Sample.zoo.
Proof.
  unfold Sample.zoo, Sample.register.
  do 3 apply reach_wrapper. apply reach_initial.
Qed.

Lemma zoo_queried_reachable : reachable Sample.issubclass Sample.zoo_queried.
Proof. apply reach_get_serializer_type, zoo_reachable. Qed.

Lemma zoo_dog_queried_reachable : reachable Sample.issubclass Sample.zoo_dog_queried.
Proof. apply reach_get_serializer, zoo_reachable. Qed.

(** A check that decides [unregistered] on a concrete registry. *)
Lemma unregistered_check _issubclass st type_ :
  od_get (SERIALIZERS st) type_ = None ->
  forallb (fun item => negb (_issubclass type_ (fst item))) (SERIALIZERS st) = true ->
  unregistered _issubclass st type_.
Proof.
  intros Hget Hall. split; [exact Hget|].
  intros registered_type fn HI.
  rewrite forallb_forall in Hall. specialize (Hall _ HI).
  cbn [fst] in Hall. destruct (_issubclass type_ registered_type); [discriminate|reflexivity].
Qed.

(** The text of the conflict message, as Python formats it. *)
Example overwrite_message_text :
  overwrite_message Sample.Dog Sample.serialize_dog Sample.kennel_serialize_dog
  = "Overwriting serializer for type <class 'zoo.Dog'> from zoo:serialize_dog to kennel:serialize_dog.".
Proof. reflexivity. Qed.

(** [Dog] has its own entry and the registered ancestor [Animal]: the
    entry for [Dog] is returned. *)
Lemma get_serializer_exact_match_witness :
  Sample.issubclass Sample.Dog Sample.Animal = true
  /\ od_get (SERIALIZERS Sample.zoo) Sample.Animal = Some Sample.serialize_animal
  /\ fst (get_serializer Sample.issubclass Sample.Dog Sample.zoo)
     = Ok (Some Sample.serialize_dog).
Proof.
  split; [reflexivity|]. split; [reflexivity|].
  apply (get_serializer_exact_match Sample.issubclass Sample.zoo Sample.Dog
           Sample.serialize_dog).
  - exact zoo_reachable.
  - reflexivity.
Defined.

(** [Labrador] has no entry; [Dog] is the key inserted last among its
    ancestors [Animal], [Pet], [Dog]. *)
Lemma get_serializer_latest_ancestor_witness :
  fst (get_serializer Sample.issubclass Sample.Labrador Sample.zoo)
  = Ok (Some Sample.serialize_dog).
Proof.
  apply (get_serializer_latest_ancestor Sample.issubclass Sample.zoo Sample.Labrador
           Sample.Dog Sample.serialize_dog
           [(Sample.Animal, Sample.serialize_animal); (Sample.Pet, Sample.serialize_pet)]
           []).
  - exact zoo_reachable.
  - reflexivity.
  - reflexivity.
  - reflexivity.
  - intros C fnC [].
Defined.

(** C2 as stated fails for the pair [Animal], [Pet]: both are registered
    ancestors of [Labrador], [Animal] was inserted before [Pet] and
    [Labrador] has no entry, yet the function returned is the one of [Dog],
    inserted after both, not the one of [Pet]. *)
Lemma recency_pair_counterexample :
  od_get (SERIALIZERS Sample.zoo) Sample.Labrador = None
  /\ SERIALIZERS Sample.zoo
     = [(Sample.Animal, Sample.serialize_animal);
        (Sample.Pet, Sample.serialize_pet);
        (Sample.Dog, Sample.serialize_dog)]
  /\ Sample.issubclass Sample.Labrador Sample.Animal = true
  /\ Sample.issubclass Sample.Labrador Sample.Pet = true
  /\ fst (get_serializer Sample.issubclass Sample.Labrador Sample.zoo)
     = Ok (Some Sample.serialize_dog)
  /\ fst (get_serializer Sample.issubclass Sample.Labrador Sample.zoo)
     <> Ok (Some Sample.serialize_pet).
Proof.
  repeat (split; [reflexivity|]).
  intros Heq. apply (f_equal (fun r => match r with
                                       | Ok (Some f) => fn_id f
                                       | _ => 1%positive
                                       end)) in Heq.
  vm_compute in Heq. discriminate.
Qed.

(** A second function for [Dog], registered with [overwrite=False]: the
    call raises and the state is the one before the call.  The function
    [Dog] already has, registered again with [overwrite=False]: the call
    returns it and the console stays empty. *)
Lemma overwrite_semantics_witness :
  wrapper None (Some false) None Sample.kennel_serialize_dog Sample.zoo
  = (Raise (ValueError
       "Overwriting serializer for type <class 'zoo.Dog'> from zoo:serialize_dog to kennel:serialize_dog."),
     Sample.zoo)
  /\ exists st',
       wrapper None (Some false) None Sample.serialize_dog Sample.zoo
       = (Ok Sample.serialize_dog, st')
       /\ st' = store_registration Sample.Dog None Sample.serialize_dog Sample.zoo
       /\ od_get (SERIALIZERS st') Sample.Dog = Some Sample.serialize_dog
       /\ console st' = console Sample.zoo.
Proof.
  split.
  - refine (proj1 (proj1 (overwrite_semantics None None Sample.kennel_serialize_dog
                            Sample.zoo Sample.Dog Sample.serialize_dog _ _) _)).
    + reflexivity.
    + reflexivity.
    + vm_compute. discriminate.
  - refine (proj2 (overwrite_semantics None None Sample.serialize_dog
                     Sample.zoo Sample.Dog Sample.serialize_dog _ _) _ (Some false)).
    + reflexivity.
    + reflexivity.
    + reflexivity.
Defined.

(** C3 as stated fails when the function registered again is the one the
    entry already holds: with [overwrite=False] the call returns instead of
    raising, and with [overwrite=None] nothing is written on the console. *)
Lemma same_function_counterexample :
  od_get (SERIALIZERS Sample.zoo) Sample.Dog = Some Sample.serialize_dog
  /\ registered_type_of Sample.serialize_dog = Some Sample.Dog
  /\ fst (wrapper None (Some false) None Sample.serialize_dog Sample.zoo)
     = Ok Sample.serialize_dog
  /\ fst (wrapper None None None Sample.serialize_dog Sample.zoo)
     = Ok Sample.serialize_dog
  /\ console (snd (wrapper None None None Sample.serialize_dog Sample.zoo)) = [].
Proof. repeat split; reflexivity. Qed.

(** [get_serializer(Dog)] was queried and memoised; then another function
    is registered for [Dog] with [to=str].  Both memos are empty afterwards
    and the next query for [Dog] returns the new function. *)
Lemma registration_invalidates_memos_witness :
  get_serializer_cache Sample.zoo_dog_queried
  = [(Sample.Dog, Some Sample.serialize_dog)]
  /\ get_serializer_cache
       (snd (wrapper (Some TStr) (Some true) None Sample.kennel_serialize_dog
               Sample.zoo_dog_queried)) = cache_clear
  /\ fst (get_serializer Sample.issubclass Sample.Dog
            (snd (wrapper (Some TStr) (Some true) None Sample.kennel_serialize_dog
                    Sample.zoo_dog_queried)))
     = Ok (Some Sample.kennel_serialize_dog).
Proof.
  split; [reflexivity|].
  pose proof (registration_invalidates_memos Sample.issubclass
                (Some TStr) (Some true) None Sample.kennel_serialize_dog
                Sample.zoo_dog_queried Sample.kennel_serialize_dog
                (snd (wrapper (Some TStr) (Some true) None Sample.kennel_serialize_dog
                        Sample.zoo_dog_queried))
                zoo_dog_queried_reachable eq_refl) as (Hclear & _ & _ & Hquery).
  split; [exact Hclear|].
  exact (proj1 (Hquery Sample.Dog)).
Defined.

(** C4 as stated fails for a registration that declares no output type:
    [get_serializer_type(Labrador)] was memoised, then a function without
    [to] and without return annotation is registered; the registration
    succeeds and the memo of [get_serializer_type] still holds its entry. *)
Lemma type_memo_kept_counterexample :
  output_type None (get_type_hints Sample.kennel_serialize_dog) = None
  /\ fst (wrapper None (Some true) None Sample.kennel_serialize_dog Sample.zoo_queried)
     = Ok Sample.kennel_serialize_dog
  /\ get_serializer_type_cache
       (snd (wrapper None (Some true) None Sample.kennel_serialize_dog
               Sample.zoo_queried))
     = [(Sample.Labrador, Some TStr)]
  /\ get_serializer_type_cache
       (snd (wrapper None (Some true) None Sample.kennel_serialize_dog
               Sample.zoo_queried))
     <> cache_clear.
Proof. repeat split; try reflexivity. vm_compute. discriminate. Qed.

(** C5 against the code: [def serialize_pair(a: int, b)] has two
    parameters, yet it is registered (for [int]) and no [ValueError] is
    raised, because only annotated parameters are counted. *)
Theorem wrapper_accepts_two_parameters :
  length (parameters Sample.serialize_pair) = 2
  /\ hinted_args (get_type_hints Sample.serialize_pair) = ["a"]
  /\ fst (wrapper None None None Sample.serialize_pair initial_state)
     = Ok Sample.serialize_pair
  /\ od_get (SERIALIZERS (snd (wrapper None None None Sample.serialize_pair initial_state)))
       TInt
     = Some Sample.serialize_pair.
Proof. repeat split; reflexivity. Qed.

(** C6 against the code: for the dataclass instance [Point(x=1, y="a")],
    with no function registered for [Point] or an ancestor,
    [serialize(point, get_type=True)] returns the bare dictionary, not a
    two-element tuple. *)
Theorem serialize_get_type_dataclass_unpaired :
  unregistered Sample.issubclass Sample.zoo Sample.Point
  /\ fst (serialize Sample.issubclass Sample.point true Sample.zoo)
     = Ok (VDict [("x", VInt 1); ("y", VStr "a")]).
Proof.
  split; [|reflexivity].
  apply unregistered_check; reflexivity.
Qed.

(** [Point(x=1, y="a")] serializes to [{"x": 1, "y": "a"}]. *)
Lemma serialize_dataclass_fallback_witness :
  fst (serialize Sample.issubclass
         (VObject Sample.Point [("x", VInt 1); ("y", VStr "a")]) false Sample.zoo)
  = Ok (VDict [("x", VInt 1); ("y", VStr "a")]).
Proof.
  apply (serialize_dataclass_fallback Sample.issubclass Sample.zoo Sample.Point
           [("x", VInt 1); ("y", VStr "a")]).
  - exact zoo_reachable.
  - reflexivity.
  - repeat constructor; cbn; intuition discriminate.
  - apply unregistered_check; reflexivity.
Defined.

(** An [int] has no function in the sample registry and is no dataclass
    instance: [serialize(3)] returns [None]. *)
Lemma serialize_absent_witness :
  fst (serialize Sample.issubclass (VInt 3) false Sample.zoo) = Ok VNone.
Proof.
  apply (serialize_absent Sample.issubclass Sample.zoo (VInt 3)).
  - exact zoo_reachable.
  - apply unregistered_check; reflexivity.
  - reflexivity.
Defined.

(** [serialize_labrador] registered with [to=str]: serializing the
    [Labrador] named Rex with [get_type=True] gives [("Rex", str)]. *)
Lemma declared_output_type_roundtrip_witness :
  fst (serialize Sample.issubclass Sample.rex true
         (snd (wrapper (Some TStr) None None Sample.serialize_labrador Sample.zoo)))
  = Ok (VTuple [VStr "Rex"; VType TStr]).
Proof.
  apply (declared_output_type_roundtrip Sample.issubclass
           (Some TStr) None None Sample.serialize_labrador Sample.zoo
           Sample.serialize_labrador
           (snd (wrapper (Some TStr) None None Sample.serialize_labrador Sample.zoo))
           Sample.Labrador Sample.rex).
  - exact zoo_reachable.
  - reflexivity.
  - reflexivity.
  - left. reflexivity.
  - reflexivity.
Defined.

(** The entry of [Pet] is overwritten: [Pet] stays between [Animal] and
    [Dog], and the scan for [Labrador] still stops at [Dog]. *)
Lemma overwrite_keeps_position_witness :
  od_keys (SERIALIZERS
             (snd (wrapper None (Some true) None Sample.kennel_serialize_pet Sample.zoo)))
  = [Sample.Animal; Sample.Pet; Sample.Dog]
  /\ option_map fst
       (first_ancestor Sample.issubclass
          (SERIALIZERS
             (snd (wrapper None (Some true) None Sample.kennel_serialize_pet Sample.zoo)))
          Sample.Labrador)
     = Some Sample.Dog.
Proof.
  pose proof (overwrite_keeps_position Sample.issubclass
                None (Some true) None Sample.kennel_serialize_pet Sample.zoo
                Sample.kennel_serialize_pet
                (snd (wrapper None (Some true) None Sample.kennel_serialize_pet Sample.zoo))
                Sample.Pet eq_refl eq_refl) as Hkeep.
  assert (Hreg : od_get (SERIALIZERS Sample.zoo) Sample.Pet <> None)
    by (vm_compute; discriminate).
  destruct (Hkeep Hreg) as [Hkeys Hscan].
  split.
  - exact Hkeys.
  - exact (Hscan Sample.Labrador).
Defined.

(** * Part III: further properties of the module *)

(** ** The scan, for either dictionary *)

Section ScanFacts.
Variable _issubclass : pytype -> pytype -> bool.
Context {V : Type}.
Implicit Types (d : odict pytype V).

Lemma resolve_exact d queried v :
  od_get d queried = Some v -> resolve _issubclass d queried = Some v.
Proof. intros Hget. unfold resolve. rewrite Hget. reflexivity. Qed.

Lemma resolve_latest d queried B vB earlier later :
  od_get d queried = None ->
  d = earlier ++ (B, vB) :: later ->
  _issubclass queried B = true ->
  (forall C vC, In (C, vC) later -> _issubclass queried C = false) ->
  resolve _issubclass d queried = Some vB.
Proof.
  intros Hget -> HB Hlater. unfold resolve, first_ancestor. rewrite Hget.
  rewrite rev_app_distr. cbn [rev]. rewrite <- app_assoc, find_skip_prefix.
  - cbn. rewrite HB. reflexivity.
  - intros [C vC] HI. apply in_rev in HI. cbn [fst]. eapply Hlater, HI.
Qed.

Lemma resolve_none d queried :
  resolve _issubclass d queried = None <->
  od_get d queried = None
  /\ forall k v, In (k, v) d -> _issubclass queried k = false.
Proof.
  unfold resolve, first_ancestor. split.
  - destruct (od_get d queried) as [v|]; [discriminate|].
    intros Hscan. split; [reflexivity|]. intros k v HI.
    destruct (find _ (rev d)) as [item|] eqn:Hfind; [discriminate|].
    apply (find_none _ _ Hfind (k, v)). apply in_rev. rewrite rev_involutive. exact HI.
  - intros [-> Hall]. rewrite find_all_false; [reflexivity|].
    intros [k v] HI. apply in_rev in HI. cbn [fst]. eapply Hall, HI.
Qed.

(** An item the scan accepts makes the scan succeed. *)
Lemma resolve_some_of_ancestor d queried k v :
  In (k, v) d -> _issubclass queried k = true ->
  resolve _issubclass d queried <> None.
Proof.
  intros HI Hsub Hnone. apply resolve_none in Hnone. destruct Hnone as [_ Hall].
  rewrite (Hall k v HI) in Hsub. discriminate.
Qed.

(** What the scan returns is the value of some item whose key is an
    ancestor. *)
Lemma resolve_some_inv d queried v :
  resolve _issubclass d queried = Some v ->
  od_get d queried = Some v
  \/ exists k, In (k, v) d /\ _issubclass queried k = true.
Proof.
  unfold resolve, first_ancestor.
  destruct (od_get d queried) as [v'|]; [intros [= ->]; left; reflexivity|].
  destruct (find _ (rev d)) as [[k v']|] eqn:Hfind; [|discriminate].
  intros [= <-]. right. exists k. apply find_some in Hfind.
  destruct Hfind as [HI Hsub]. split; [apply in_rev, HI|exact Hsub].
Qed.

Lemma find_append {A} (p : A -> bool) (l1 l2 : list A) :
  find p (l1 ++ l2)
  = match find p l1 with Some x => Some x | None => find p l2 end.
Proof.
  induction l1 as [|x l1 IH]; cbn; [reflexivity|].
  destruct (p x); [reflexivity|exact IH].
Qed.

(** Storing under [k] changes nothing for a queried type that is neither
    [k] nor a subclass of [k]. *)
Lemma find_rev_od_set (p : pytype -> bool) d k v :
  p k = false ->
  find (fun item => p (fst item)) (rev (od_set d k v))
  = find (fun item => p (fst item)) (rev d).
Proof.
  intros Hk. induction d as [|[k' v'] d IH]; cbn.
  - rewrite Hk. reflexivity.
  - destruct (decide (k = k')) as [->|Hne]; cbn.
    + rewrite !find_append. destruct (find _ (rev d)); [reflexivity|].
      cbn. rewrite Hk. reflexivity.
    + rewrite !find_append, IH. reflexivity.
Qed.

Lemma resolve_od_set_other d queried k v :
  queried <> k -> _issubclass queried k = false ->
  resolve _issubclass (od_set d k v) queried = resolve _issubclass d queried.
Proof.
  intros Hne Hsub. unfold resolve, first_ancestor.
  rewrite od_get_set_ne by congruence.
  rewrite (find_rev_od_set (_issubclass queried)) by exact Hsub. reflexivity.
Qed.

End ScanFacts.

(** ** Queries *)

Section QueryFacts.
Variable _issubclass : pytype -> pytype -> bool.
Implicit Types (st : state) (v : value).

Lemma serialize_frame v get_type st :
  SERIALIZERS (snd (serialize _issubclass v get_type st)) = SERIALIZERS st
  /\ SERIALIZER_TYPES (snd (serialize _issubclass v get_type st)) = SERIALIZER_TYPES st
  /\ console (snd (serialize _issubclass v get_type st)) = console st.
Proof.
  unfold serialize, bind. rewrite get_serializer_eq. cbn zeta.
  destruct (fst (lru_call _ _ _)) as [s|].
  - destruct (call s v) as [serialized|e]; [|cbn; auto].
    destruct get_type; [|cbn; auto].
    rewrite get_serializer_type_eq. cbn. auto.
  - destruct (is_dataclass v && negb (isinstance_type v)); [cbn; auto|].
    destruct get_type; cbn; auto.
Qed.

Lemma has_serializer_frame type_ into_type st :
  SERIALIZERS (snd (has_serializer _issubclass type_ into_type st)) = SERIALIZERS st
  /\ SERIALIZER_TYPES (snd (has_serializer _issubclass type_ into_type st))
     = SERIALIZER_TYPES st
  /\ console (snd (has_serializer _issubclass type_ into_type st)) = console st.
Proof.
  unfold has_serializer, bind. rewrite get_serializer_eq. cbn zeta.
  destruct (fst (lru_call _ _ _)) as [s|]; [|cbn; auto].
  destruct into_type as [into_type|]; [|cbn; auto].
  rewrite get_serializer_type_eq. cbn. auto.
Qed.

Lemma coherent_has_serializer type_ into_type st :
  coherent _issubclass st ->
  coherent _issubclass (snd (has_serializer _issubclass type_ into_type st)).
Proof.
  intros Hc. unfold has_serializer, bind.
  pose proof (coherent_get_serializer _issubclass type_ st Hc) as Hc1.
  rewrite get_serializer_eq in *. cbn [fst snd] in *.
  set (st1 := mkState _ _ _ _ _) in *.
  destruct (fst (lru_call _ _ _)) as [s|]; [|exact Hc1].
  destruct into_type as [into_type|]; [|exact Hc1].
  pose proof (coherent_get_serializer_type _issubclass type_ st1 Hc1) as Hc2.
  rewrite get_serializer_type_eq in *. exact Hc2.
Qed.

(** What [has_serializer] answers, read off the two dictionaries. *)
Lemma has_serializer_value type_ into_type st :
  coherent _issubclass st ->
  fst (has_serializer _issubclass type_ into_type st) =
  Ok (match get_serializer_wrapped _issubclass st type_ with
      | None => false
      | Some _ =>
          match into_type with
          | None => true
          | Some into_type =>
              bool_decide (get_serializer_type_wrapped _issubclass st type_
                           = Some into_type)
          end
      end).
Proof.
  intros Hc. unfold has_serializer, bind.
  pose proof (coherent_get_serializer _issubclass type_ st Hc) as Hc1.
  destruct Hc as [Hf _].
  rewrite get_serializer_eq in *. rewrite (lru_call_result _ _ _ Hf).
  cbn [snd] in Hc1. set (st1 := mkState _ _ _ _ _) in *.
  destruct (get_serializer_wrapped _issubclass st type_) as [s|]; [|reflexivity].
  destruct into_type as [into_type|]; [|reflexivity].
  pose proof (get_serializer_type_coherent _issubclass type_ st1 Hc1) as Ht.
  destruct (get_serializer_type _issubclass type_ st1) as [[t|e] st2];
    cbn [fst] in Ht; [|discriminate].
  injection Ht as ->. reflexivity.
Qed.

Lemma can_serialize_frame type_ into_type st :
  SERIALIZERS (snd (can_serialize _issubclass type_ into_type st)) = SERIALIZERS st
  /\ SERIALIZER_TYPES (snd (can_serialize _issubclass type_ into_type st))
     = SERIALIZER_TYPES st
  /\ console (snd (can_serialize _issubclass type_ into_type st)) = console st.
Proof.
  pose proof (has_serializer_frame type_ into_type st) as Hframe.
  unfold can_serialize, bind.
  destruct (has_serializer _issubclass type_ into_type st) as [[[|]|e] st1];
    exact Hframe.
Qed.

Lemma can_serialize_value type_ into_type st :
  coherent _issubclass st ->
  fst (can_serialize _issubclass type_ into_type st) =
  Ok (match get_serializer_wrapped _issubclass st type_ with
      | None => false
      | Some _ =>
          match into_type with
          | None => true
          | Some into_type =>
              bool_decide (get_serializer_type_wrapped _issubclass st type_
                           = Some into_type)
          end
      end
      || has_dataclass_fields type_
         && match into_type with
            | None => true
            | Some into_type => bool_decide (into_type = TDict)
            end).
Proof.
  intros Hc. pose proof (has_serializer_value type_ into_type st Hc) as Hv.
  unfold can_serialize, bind.
  destruct (has_serializer _issubclass type_ into_type st) as [[b|e] st1];
    cbn [fst] in Hv; [|discriminate].
  injection Hv as <-.
  match goal with |- context [if ?h then _ else _] => destruct h end; reflexivity.
Qed.

(** X1. When [SERIALIZER_TYPES] has an entry for exactly [type_],
    [get_serializer_type(type_)] returns it, whatever ancestors of [type_]
    have an entry too. *)
Theorem get_serializer_type_exact_match st type_ to_type :
  reachable _issubclass st ->
  od_get (SERIALIZER_TYPES st) type_ = Some to_type ->
  fst (get_serializer_type _issubclass type_ st) = Ok (Some to_type).
Proof.
  intros Hr Hget.
  rewrite get_serializer_type_coherent by apply reachable_coherent, Hr.
  unfold get_serializer_type_wrapped. rewrite (resolve_exact _ _ _ _ Hget).
  reflexivity.
Qed.

(** X2. When [type_] has no entry in [SERIALIZER_TYPES],
    [get_serializer_type(type_)] returns the output type of the most
    recently inserted key of [SERIALIZER_TYPES] that [type_] is a subclass
    of. *)
Theorem get_serializer_type_latest_ancestor st type_ B to_type earlier later :
  reachable _issubclass st ->
  od_get (SERIALIZER_TYPES st) type_ = None ->
  SERIALIZER_TYPES st = earlier ++ (B, to_type) :: later ->
  _issubclass type_ B = true ->
  (forall C tC, In (C, tC) later -> _issubclass type_ C = false) ->
  fst (get_serializer_type _issubclass type_ st) = Ok (Some to_type).
Proof.
  intros Hr Hget Hsplit HB Hlater.
  rewrite get_serializer_type_coherent by apply reachable_coherent, Hr.
  unfold get_serializer_type_wrapped.
  rewrite (resolve_latest _ _ _ _ _ _ _ Hget Hsplit HB Hlater). reflexivity.
Qed.

(** X3. [get_serializer(type_)] returns [None] exactly when [type_] has no
    entry and is a subclass of no registered type. *)
Theorem get_serializer_none_iff_unregistered st type_ :
  reachable _issubclass st ->
  fst (get_serializer _issubclass type_ st) = Ok None
  <-> unregistered _issubclass st type_.
Proof.
  intros Hr. rewrite get_serializer_coherent by apply reachable_coherent, Hr.
  unfold get_serializer_wrapped, unregistered. rewrite <- resolve_none.
  split; [intros [= ->]; reflexivity|intros ->; reflexivity].
Qed.

(** X4. The memos are transparent: what [get_serializer] and
    [get_serializer_type] return for a type does not depend on the queries
    ([get_serializer], [get_serializer_type], [serialize]) made just before,
    in particular not on whether the type itself was queried. *)
Theorem query_order_irrelevant st type_ other v get_type :
  reachable _issubclass st ->
  fst (get_serializer _issubclass type_
         (snd (get_serializer _issubclass other st)))
  = fst (get_serializer _issubclass type_ st)
  /\ fst (get_serializer_type _issubclass type_
            (snd (get_serializer_type _issubclass other st)))
     = fst (get_serializer_type _issubclass type_ st)
  /\ fst (get_serializer _issubclass type_
            (snd (serialize _issubclass v get_type st)))
     = fst (get_serializer _issubclass type_ st)
  /\ fst (get_serializer_type _issubclass type_
            (snd (serialize _issubclass v get_type st)))
     = fst (get_serializer_type _issubclass type_ st).
Proof.
  intros Hr. pose proof (reachable_coherent _ _ Hr) as Hc.
  pose proof (get_serializer_registry _issubclass other st) as (Hs1 & _ & _).
  pose proof (get_serializer_type_registry _issubclass other st) as (_ & Ht2 & _).
  pose proof (serialize_frame v get_type st) as (Hs3 & Ht3 & _).
  repeat split.
  - rewrite !get_serializer_coherent;
      [|exact Hc|apply coherent_get_serializer, Hc].
    unfold get_serializer_wrapped. rewrite Hs1. reflexivity.
  - rewrite !get_serializer_type_coherent;
      [|exact Hc|apply coherent_get_serializer_type, Hc].
    unfold get_serializer_type_wrapped. rewrite Ht2. reflexivity.
  - rewrite !get_serializer_coherent; [|exact Hc|apply coherent_serialize, Hc].
    unfold get_serializer_wrapped. rewrite Hs3. reflexivity.
  - rewrite !get_serializer_type_coherent; [|exact Hc|apply coherent_serialize, Hc].
    unfold get_serializer_type_wrapped. rewrite Ht3. reflexivity.
Qed.

(** X5. [serialize] and [can_serialize] (hence [has_serializer]) only read
    the registry: both dictionaries and the console are the same after the
    call, whatever the arguments and the outcome. *)
Theorem queries_never_write st v get_type type_ into_type :
  (SERIALIZERS (snd (serialize _issubclass v get_type st)) = SERIALIZERS st
   /\ SERIALIZER_TYPES (snd (serialize _issubclass v get_type st)) = SERIALIZER_TYPES st
   /\ console (snd (serialize _issubclass v get_type st)) = console st)
  /\ (SERIALIZERS (snd (can_serialize _issubclass type_ into_type st)) = SERIALIZERS st
      /\ SERIALIZER_TYPES (snd (can_serialize _issubclass type_ into_type st))
         = SERIALIZER_TYPES st
      /\ console (snd (can_serialize _issubclass type_ into_type st)) = console st).
Proof. split; [apply serialize_frame|apply can_serialize_frame]. Qed.

End QueryFacts.

(** ** Type hints and the argument type *)

Section HintFacts.
Implicit Types (fn : function) (st : state).

Lemma fold_od_set_extend {V} (items acc : odict string V) :
  List.NoDup (od_keys items) ->
  (forall k, In k (od_keys items) -> ~ In k (od_keys acc)) ->
  fold_left (fun d kv => od_set d (fst kv) (snd kv)) items acc = acc ++ items.
Proof.
  revert acc. induction items as [|[k v] items IH]; intros acc Hnd Hdisj; cbn.
  - rewrite app_nil_r. reflexivity.
  - cbn in Hnd. apply NoDup_cons_iff in Hnd. destruct Hnd as [Hk Hnd].
    rewrite od_set_absent.
    + rewrite IH; [rewrite <- app_assoc; reflexivity|exact Hnd|].
      intros k' Hk'. unfold od_keys. rewrite map_app, in_app_iff. cbn.
      intros [Hacc|[->|[]]].
      * apply (Hdisj k'); [right; exact Hk'|exact Hacc].
      * exact (Hk Hk').
    + apply od_get_not_key, Hdisj. left. reflexivity.
Qed.

Lemma annotated_names_In (params : list (string * option pytype)) k :
  In k (map fst (flat_map (fun p => match snd p with
                                    | Some t => [(fst p, t)]
                                    | None => []
                                    end) params)) ->
  In k (map fst params).
Proof.
  induction params as [|[name [t|]] params IH]; cbn; [tauto| |].
  - intros [->|HI]; [left; reflexivity|right; apply IH, HI].
  - intros HI. right. apply IH, HI.
Qed.

Lemma annotated_names_NoDup fn :
  List.NoDup (map fst (parameters fn)) ->
  List.NoDup (map fst (annotated_parameters fn)).
Proof.
  unfold annotated_parameters.
  induction (parameters fn) as [|[name [t|]] params IH]; cbn; intros Hnd.
  - constructor.
  - apply NoDup_cons_iff in Hnd. destruct Hnd as [Hname Hnd].
    constructor; [|apply IH, Hnd].
    intros HI. apply Hname, annotated_names_In, HI.
  - apply NoDup_cons_iff in Hnd. apply IH, Hnd.
Qed.

(** With distinct parameter names, none of them [return], the hints are the
    annotated parameters in order, followed by the return annotation. *)
Lemma get_type_hints_annotated fn :
  List.NoDup (map fst (parameters fn)) ->
  ~ In "return" (map fst (parameters fn)) ->
  get_type_hints fn
  = annotated_parameters fn
    ++ match return_annotation fn with
       | Some t => [("return", t)]
       | None => []
       end.
Proof.
  intros Hnd Hret. unfold get_type_hints.
  assert (Hfold : forall params acc,
             fold_left
               (fun d (p : string * option pytype) =>
                  match snd p with Some t => od_set d (fst p) t | None => d end)
               params acc
             = fold_left (fun d kv => od_set d (fst kv) (snd kv))
                 (flat_map (fun p => match snd p with
                                     | Some t => [(fst p, t)]
                                     | None => []
                                     end) params) acc).
  { induction params as [|[name [t|]] params IH]; intros acc; cbn;
      [reflexivity|apply IH|apply IH]. }
  rewrite Hfold. fold (annotated_parameters fn).
  rewrite fold_od_set_extend;
    [|apply annotated_names_NoDup, Hnd|intros k _ []].
  cbn [app]. destruct (return_annotation fn) as [t|].
  - apply od_set_absent, od_get_not_key.
    intros HI. apply Hret, annotated_names_In, HI.
  - rewrite app_nil_r. reflexivity.
Qed.

Lemma hinted_args_annotated fn :
  List.NoDup (map fst (parameters fn)) ->
  ~ In "return" (map fst (parameters fn)) ->
  hinted_args (get_type_hints fn) = map fst (annotated_parameters fn).
Proof.
  intros Hnd Hret. rewrite (get_type_hints_annotated fn Hnd Hret).
  unfold hinted_args, od_keys. rewrite map_app, List.filter_app.
  assert (Hkeep : forall names : list string,
             ~ In "return" names ->
             List.filter (fun arg => negb (bool_decide (arg = "return"))) names
             = names).
  { induction names as [|name names IH]; cbn; intros Hnot; [reflexivity|].
    rewrite bool_decide_eq_false_2 by (intros ->; apply Hnot; left; reflexivity).
    cbn. f_equal. apply IH. intros HI. apply Hnot. right. exact HI. }
  rewrite Hkeep by (intros HI; apply Hret, annotated_names_In, HI).
  destruct (return_annotation fn); cbn; rewrite app_nil_r; reflexivity.
Qed.

(** X6. A function is refused with [ValueError("Serializer must take a
    single argument.")] whenever the number of its annotated parameters is
    not one, however many parameters it has: in particular a function with
    one parameter that carries no annotation is refused.  The state is
    left as it was. *)
Theorem wrapper_refuses_unless_one_annotation to overwrite caller_frame fn st :
  List.NoDup (map fst (parameters fn)) ->
  ~ In "return" (map fst (parameters fn)) ->
  length (annotated_parameters fn) <> 1 ->
  wrapper to overwrite caller_frame fn st
  = (Raise (ValueError "Serializer must take a single argument."), st).
Proof.
  intros Hnd Hret Hlen. apply wrapper_arity_error.
  rewrite (hinted_args_annotated fn Hnd Hret), length_map. exact Hlen.
Qed.

Lemma registered_type_of_annotated fn arg type_ :
  List.NoDup (map fst (parameters fn)) ->
  ~ In "return" (map fst (parameters fn)) ->
  annotated_parameters fn = [(arg, type_)] ->
  registered_type_of fn = Some type_.
Proof.
  intros Hnd Hret Hann. unfold registered_type_of.
  rewrite (hinted_args_annotated fn Hnd Hret), Hann. cbn [map fst].
  rewrite (get_type_hints_annotated fn Hnd Hret), Hann. cbn.
  destruct (decide (arg = arg)); [reflexivity|contradiction].
Qed.

(** X7. A successful [wrapper] call stores the function in [SERIALIZERS]
    under the annotation of its only annotated parameter, wherever that
    parameter stands among the others; the return annotation plays no
    part in the key. *)
Theorem registered_type_is_the_annotation
    to overwrite caller_frame fn st r st' arg type_ :
  List.NoDup (map fst (parameters fn)) ->
  ~ In "return" (map fst (parameters fn)) ->
  annotated_parameters fn = [(arg, type_)] ->
  wrapper to overwrite caller_frame fn st = (Ok r, st') ->
  SERIALIZERS st' = od_set (SERIALIZERS st) type_ fn
  /\ od_get (SERIALIZERS st') type_ = Some fn.
Proof.
  intros Hnd Hret Hann Hw.
  pose proof (registered_type_of_annotated fn arg type_ Hnd Hret Hann) as Hty.
  apply wrapper_ok_inv in Hw.
  destruct Hw as (type_' & st0 & Hty' & _ & -> & Hst0).
  rewrite Hty in Hty'. injection Hty' as <-.
  assert (Hs : SERIALIZERS (store_registration type_
                  (output_type to (get_type_hints fn)) fn st0)
               = od_set (SERIALIZERS st) type_ fn).
  { assert (H0 : SERIALIZERS st0 = SERIALIZERS st)
      by (destruct Hst0 as [->|[msg ->]]; reflexivity).
    destruct (output_type to (get_type_hints fn)); cbn; rewrite H0; reflexivity. }
  split; [exact Hs|]. rewrite Hs. apply od_get_set_eq.
Qed.

(** X8. Registration is all or nothing: a call of [wrapper] that raises
    (the arity error or the conflict error, both raised before the first
    write) has left both dictionaries, both memos and the console exactly
    as they were. *)
Theorem failed_registration_changes_nothing to overwrite caller_frame fn st e st' :
  wrapper to overwrite caller_frame fn st = (Raise e, st') ->
  SERIALIZERS st' = SERIALIZERS st
  /\ SERIALIZER_TYPES st' = SERIALIZER_TYPES st
  /\ get_serializer_cache st' = get_serializer_cache st
  /\ get_serializer_type_cache st' = get_serializer_type_cache st
  /\ console st' = console st.
Proof.
  intros Hw.
  pose proof (wrapper_raise_unchanged to overwrite caller_frame fn st e) as Hst.
  rewrite Hw in Hst. cbn [fst snd] in Hst. rewrite (Hst eq_refl).
  repeat split.
Qed.

(** X9. Registering a function for a type that has no entry yet succeeds
    whatever [overwrite] is (also [False]), writes nothing on the console,
    and puts the type last in the insertion order. *)
Theorem fresh_type_registration to overwrite caller_frame fn st type_ :
  registered_type_of fn = Some type_ ->
  od_get (SERIALIZERS st) type_ = None ->
  exists st',
    wrapper to overwrite caller_frame fn st = (Ok fn, st')
    /\ console st' = console st
    /\ SERIALIZERS st' = SERIALIZERS st ++ [(type_, fn)].
Proof.
  intros Hty Hget. eexists. rewrite (wrapper_cases _ _ _ _ _ _ Hty), Hget.
  cbn zeta. split; [reflexivity|].
  destruct (output_type to (get_type_hints fn)); cbn;
    (split; [reflexivity|apply od_set_absent, Hget]).
Qed.

End HintFacts.

(** ** Registration followed by queries *)

Section RegistryFacts.
Variable _issubclass : pytype -> pytype -> bool.
Implicit Types (st : state) (fn : function) (to : option pytype)
  (overwrite : option bool) (caller_frame : option frame) (v : value).

(** The dictionaries after a successful registration. *)
Lemma wrapper_ok_registry to overwrite caller_frame fn st r st' type_ :
  wrapper to overwrite caller_frame fn st = (Ok r, st') ->
  registered_type_of fn = Some type_ ->
  r = fn
  /\ SERIALIZERS st' = od_set (SERIALIZERS st) type_ fn
  /\ SERIALIZER_TYPES st'
     = match output_type to (get_type_hints fn) with
       | Some to_type => od_set (SERIALIZER_TYPES st) type_ to_type
       | None => SERIALIZER_TYPES st
       end.
Proof.
  intros Hw Hty. apply wrapper_ok_inv in Hw.
  destruct Hw as (type_' & st0 & Hty' & -> & -> & Hst0).
  rewrite Hty in Hty'. injection Hty' as <-.
  assert (Hs : SERIALIZERS st0 = SERIALIZERS st
               /\ SERIALIZER_TYPES st0 = SERIALIZER_TYPES st)
    by (destruct Hst0 as [->|[msg ->]]; split; reflexivity).
  destruct Hs as [Hs Ht]. split; [reflexivity|].
  destruct (output_type to (get_type_hints fn)); cbn; rewrite Hs, Ht; auto.
Qed.

Lemma wrapper_ok_coherent to overwrite caller_frame fn st r st' :
  reachable _issubclass st ->
  wrapper to overwrite caller_frame fn st = (Ok r, st') ->
  coherent _issubclass st'.
Proof.
  intros Hr Hw. change st' with (snd (Ok r, st')). rewrite <- Hw.
  apply coherent_wrapper, reachable_coherent, Hr.
Qed.

Lemma serialize_memo_bound v get_type st :
  length (get_serializer_cache st) <= maxsize
  /\ length (get_serializer_type_cache st) <= maxsize ->
  length (get_serializer_cache (snd (serialize _issubclass v get_type st))) <= maxsize
  /\ length (get_serializer_type_cache (snd (serialize _issubclass v get_type st)))
     <= maxsize.
Proof.
  intros [Hf Ht].
  pose proof (lru_call_length (get_serializer_wrapped _issubclass st) (type_of v)
                _ Hf) as Hf1.
  unfold serialize, bind. rewrite get_serializer_eq. cbn zeta.
  set (st1 := mkState _ _ _ _ _).
  destruct (fst (lru_call _ _ _)) as [s|].
  - destruct (call s v) as [serialized|e]; [|cbn; auto].
    destruct get_type; [|cbn; auto].
    rewrite get_serializer_type_eq. cbn. split; [exact Hf1|].
    apply (lru_call_length (get_serializer_type_wrapped _issubclass st1)), Ht.
  - destruct (is_dataclass v && negb (isinstance_type v)); [cbn; auto|].
    destruct get_type; cbn; auto.
Qed.

(** X10. Neither memo ever holds more than 128 results, whatever sequence
    of registrations and queries the module has gone through. *)
Theorem memos_bounded st :
  reachable _issubclass st ->
  length (get_serializer_cache st) <= 128
  /\ length (get_serializer_type_cache st) <= 128.
Proof.
  change 128 with (@maxsize).
  induction 1 as [|to overwrite caller_frame fn st _ IH|type_ st _ IH
                  |type_ st _ IH|v get_type st _ IH].
  - cbn. split; apply Nat.le_0_l.
  - destruct (wrapper to overwrite caller_frame fn st) as [[r|e] st'] eqn:Hw.
    + apply wrapper_ok_inv in Hw.
      destruct Hw as (type_ & st0 & _ & _ & -> & Hst0). cbn [snd].
      split; [cbn; apply Nat.le_0_l|].
      destruct (output_type to (get_type_hints fn)); [cbn; apply Nat.le_0_l|].
      destruct Hst0 as [->|[msg ->]]; apply IH.
    + pose proof (wrapper_raise_unchanged to overwrite caller_frame fn st e) as Hst.
      rewrite Hw in Hst. cbn [fst snd] in *. rewrite (Hst eq_refl). exact IH.
  - rewrite get_serializer_eq. cbn. split; [|apply IH].
    apply (lru_call_length (get_serializer_wrapped _issubclass st)), IH.
  - rewrite get_serializer_type_eq. cbn. split; [apply IH|].
    apply (lru_call_length (get_serializer_type_wrapped _issubclass st)), IH.
  - apply serialize_memo_bound, IH.
Qed.

(** Every type with a declared output type has a registered function. *)
Lemma output_types_have_functions st :
  reachable _issubclass st ->
  forall k, od_get (SERIALIZER_TYPES st) k <> None ->
            od_get (SERIALIZERS st) k <> None.
Proof.
  induction 1 as [|to overwrite caller_frame fn st _ IH|type_ st _ IH
                  |type_ st _ IH|v get_type st _ IH].
  - cbn. auto.
  - destruct (wrapper to overwrite caller_frame fn st) as [[r|e] st'] eqn:Hw.
    + destruct (wrapper_ok_inv _ _ _ _ _ _ _ Hw) as (type_ & _ & Hty & _).
      destruct (wrapper_ok_registry _ _ _ _ _ _ _ _ Hw Hty) as (_ & Hs & Ht).
      cbn [snd]. rewrite Hs, Ht. intros k Hk.
      destruct (decide (type_ = k)) as [->|Hne].
      * rewrite od_get_set_eq. discriminate.
      * rewrite od_get_set_ne by exact Hne. apply IH.
        destruct (output_type to (get_type_hints fn)); [|exact Hk].
        rewrite od_get_set_ne in Hk by exact Hne. exact Hk.
    + pose proof (wrapper_raise_unchanged to overwrite caller_frame fn st e) as Hst.
      rewrite Hw in Hst. cbn [fst snd] in *. rewrite (Hst eq_refl). exact IH.
  - destruct (get_serializer_registry _issubclass type_ st) as (-> & -> & _).
    exact IH.
  - destruct (get_serializer_type_registry _issubclass type_ st) as (-> & -> & _).
    exact IH.
  - destruct (serialize_frame _issubclass v get_type st) as (-> & -> & _).
    exact IH.
Qed.

(** X11. An output type is only ever resolved where a function is: if
    [get_serializer_type(type_)] returns a type, [get_serializer(type_)]
    returns a function. *)
Theorem output_type_implies_function st type_ to_type :
  reachable _issubclass st ->
  fst (get_serializer_type _issubclass type_ st) = Ok (Some to_type) ->
  exists fn, fst (get_serializer _issubclass type_ st) = Ok (Some fn).
Proof.
  intros Hr. pose proof (reachable_coherent _ _ Hr) as Hc.
  rewrite get_serializer_type_coherent, get_serializer_coherent by exact Hc.
  intros [= Ht].
  destruct (get_serializer_wrapped _issubclass st type_) as [fn|] eqn:Hf;
    [exists fn; reflexivity|exfalso].
  assert (Hkey : exists k, od_get (SERIALIZER_TYPES st) k <> None
                           /\ (k = type_ \/ _issubclass type_ k = true)).
  { apply resolve_some_inv in Ht. destruct Ht as [Hget|(k & HI & Hsub)].
    - exists type_. rewrite Hget. split; [discriminate|left; reflexivity].
    - exists k. split; [|right; exact Hsub].
      intros Hnone. exact (od_get_None_not_In _ _ _ Hnone HI). }
  destruct Hkey as (k & Hk & Hrel).
  apply (output_types_have_functions st Hr) in Hk.
  destruct (od_get (SERIALIZERS st) k) as [fn|] eqn:Hget; [|contradiction].
  destruct Hrel as [->|Hsub].
  - unfold get_serializer_wrapped in Hf. rewrite (resolve_exact _ _ _ _ Hget) in Hf.
    discriminate.
  - apply od_get_In in Hget.
    exact (resolve_some_of_ancestor _issubclass _ _ _ _ Hget Hsub Hf).
Qed.

(** X12. Registration and lookup round-trip: a successful [wrapper] call
    returns the function it was given, [get_serializer] of the argument
    type then returns that function, and [serialize] applies it to every
    value of exactly that type. *)
Theorem register_then_resolve to overwrite caller_frame fn st r st' type_ :
  reachable _issubclass st ->
  wrapper to overwrite caller_frame fn st = (Ok r, st') ->
  registered_type_of fn = Some type_ ->
  r = fn
  /\ fst (get_serializer _issubclass type_ st') = Ok (Some fn)
  /\ forall v, type_of v = type_ ->
               fst (serialize _issubclass v false st') = call fn v.
Proof.
  intros Hr Hw Hty. pose proof (wrapper_ok_coherent _ _ _ _ _ _ _ Hr Hw) as Hc.
  destruct (wrapper_ok_registry _ _ _ _ _ _ _ _ Hw Hty) as (-> & Hs & _).
  assert (Hres : get_serializer_wrapped _issubclass st' type_ = Some fn).
  { unfold get_serializer_wrapped. apply resolve_exact.
    rewrite Hs. apply od_get_set_eq. }
  split; [reflexivity|]. split.
  - rewrite get_serializer_coherent by exact Hc. rewrite Hres. reflexivity.
  - intros v <-. rewrite (serialize_found _issubclass v false st' fn Hc Hres).
    destruct (call fn v); reflexivity.
Qed.

(** X13. A function registered for a type [B] that had no entry serves
    from then on every subclass of [B] that has no entry of its own,
    whichever ancestors of that subclass were registered before. *)
Theorem new_ancestor_shadows_older to overwrite caller_frame fn st r st' B queried :
  reachable _issubclass st ->
  wrapper to overwrite caller_frame fn st = (Ok r, st') ->
  registered_type_of fn = Some B ->
  od_get (SERIALIZERS st) B = None ->
  od_get (SERIALIZERS st) queried = None ->
  _issubclass queried B = true ->
  fst (get_serializer _issubclass queried st') = Ok (Some fn).
Proof.
  intros Hr Hw Hty HB Hq Hsub.
  pose proof (wrapper_ok_coherent _ _ _ _ _ _ _ Hr Hw) as Hc.
  destruct (wrapper_ok_registry _ _ _ _ _ _ _ _ Hw Hty) as (_ & Hs & _).
  rewrite get_serializer_coherent by exact Hc. f_equal.
  unfold get_serializer_wrapped. rewrite Hs.
  destruct (decide (B = queried)) as [->|Hne].
  - apply resolve_exact, od_get_set_eq.
  - apply (resolve_latest _issubclass _ queried B fn (SERIALIZERS st) []).
    + rewrite od_get_set_ne by exact Hne. exact Hq.
    + apply od_set_absent, HB.
    + exact Hsub.
    + intros C vC [].
Qed.

(** X14. A registration for [B] changes neither the function nor the
    output type resolved for a type that is not [B] and not a subclass of
    [B]. *)
Theorem registration_leaves_unrelated_types
    to overwrite caller_frame fn st r st' B queried :
  reachable _issubclass st ->
  wrapper to overwrite caller_frame fn st = (Ok r, st') ->
  registered_type_of fn = Some B ->
  queried <> B ->
  _issubclass queried B = false ->
  fst (get_serializer _issubclass queried st')
  = fst (get_serializer _issubclass queried st)
  /\ fst (get_serializer_type _issubclass queried st')
     = fst (get_serializer_type _issubclass queried st).
Proof.
  intros Hr Hw Hty Hne Hsub.
  pose proof (wrapper_ok_coherent _ _ _ _ _ _ _ Hr Hw) as Hc'.
  pose proof (reachable_coherent _ _ Hr) as Hc.
  destruct (wrapper_ok_registry _ _ _ _ _ _ _ _ Hw Hty) as (_ & Hs & Ht).
  rewrite !get_serializer_coherent, !get_serializer_type_coherent by assumption.
  unfold get_serializer_wrapped, get_serializer_type_wrapped. rewrite Hs, Ht.
  split; f_equal.
  - apply resolve_od_set_other; assumption.
  - destruct (output_type to (get_type_hints fn)); [|reflexivity].
    apply resolve_od_set_other; assumption.
Qed.

(** X15. Registering a function that declares no output type (no [to], no
    return annotation) changes no output-type resolution: a type whose
    entry is overwritten this way keeps the output type declared by the
    function that was replaced. *)
Theorem untyped_registration_keeps_output_types
    overwrite caller_frame fn st r st' queried :
  reachable _issubclass st ->
  wrapper None overwrite caller_frame fn st = (Ok r, st') ->
  return_annotation fn = None ->
  ~ In "return" (map fst (parameters fn)) ->
  fst (get_serializer_type _issubclass queried st')
  = fst (get_serializer_type _issubclass queried st).
Proof.
  intros Hr Hw Hret Hnames.
  pose proof (wrapper_ok_coherent _ _ _ _ _ _ _ Hr Hw) as Hc'.
  pose proof (reachable_coherent _ _ Hr) as Hc.
  destruct (wrapper_ok_inv _ _ _ _ _ _ _ Hw) as (type_ & _ & Hty & _).
  destruct (wrapper_ok_registry _ _ _ _ _ _ _ _ Hw Hty) as (_ & _ & Ht).
  assert (Hout : output_type None (get_type_hints fn) = None).
  { cbn. unfold get_type_hints. rewrite Hret.
    apply od_get_not_key. unfold od_keys.
    set (step := fun (d : odict string pytype) (p : string * option pytype) =>
                   match snd p with Some t => od_set d (fst p) t | None => d end).
    assert (Hfold : forall params acc,
               ~ In "return" (map fst params) -> ~ In "return" (map fst acc) ->
               ~ In "return" (map fst (fold_left step params acc))).
    { induction params as [|[name [t|]] params IH]; intros acc Hp Hacc; cbn;
        [exact Hacc| |].
      - apply IH; [cbn in Hp; tauto|]. unfold step. cbn.
        intros HI. apply in_map_iff in HI. destruct HI as ([k x] & Hk & HI).
        cbn in Hk. subst k.
        destruct (od_get acc "return") as [y|] eqn:Hget.
        + apply Hacc. apply od_get_In in Hget.
          apply in_map_iff. exists ("return", y). auto.
        + destruct (decide (name = "return")) as [->|Hn]; [cbn in Hp; tauto|].
          rewrite <- (od_get_set_ne acc name "return" t Hn) in Hget.
          exact (od_get_None_not_In _ _ _ Hget HI).
      - apply IH; [cbn in Hp; tauto|exact Hacc]. }
    apply Hfold; [exact Hnames|cbn; tauto]. }
  rewrite Hout in Ht.
  rewrite !get_serializer_type_coherent by assumption.
  unfold get_serializer_type_wrapped. rewrite Ht. reflexivity.
Qed.

(** X16. An explicit [to] takes precedence over the return annotation:
    after a successful registration with [to], [get_serializer_type] of
    the argument type returns [to], whatever the function's return
    annotation is. *)
Theorem explicit_to_wins to_type overwrite caller_frame fn st r st' type_ :
  reachable _issubclass st ->
  wrapper (Some to_type) overwrite caller_frame fn st = (Ok r, st') ->
  registered_type_of fn = Some type_ ->
  fst (get_serializer_type _issubclass type_ st') = Ok (Some to_type).
Proof.
  intros Hr Hw Hty.
  pose proof (wrapper_ok_coherent _ _ _ _ _ _ _ Hr Hw) as Hc.
  destruct (wrapper_ok_registry _ _ _ _ _ _ _ _ Hw Hty) as (_ & _ & Ht).
  rewrite get_serializer_type_coherent by exact Hc. f_equal.
  unfold get_serializer_type_wrapped. apply resolve_exact.
  rewrite Ht. cbn. apply od_get_set_eq.
Qed.

End RegistryFacts.

(** ** [has_serializer] and [can_serialize] against [serialize] *)

Section PredicateFacts.
Variable _issubclass : pytype -> pytype -> bool.
Implicit Types (st : state) (v : value).

Lemma not_dataclass_instance v :
  has_dataclass_fields (type_of v) = false ->
  is_dataclass v && negb (isinstance_type v) = false.
Proof.
  unfold is_dataclass.
  destruct v; cbn [type_of isinstance_type negb]; intros H;
    rewrite ?H, ?andb_false_r; reflexivity.
Qed.

Lemma dataclass_instance v :
  has_dataclass_fields (type_of v) = true ->
  is_dataclass v && negb (isinstance_type v) = true.
Proof.
  unfold is_dataclass.
  destruct v; cbn [type_of isinstance_type negb]; intros H;
    try (cbn in H; discriminate).
  rewrite H. reflexivity.
Qed.

(** X17. When [can_serialize(type(value))] answers [False],
    [serialize(value)] returns [None]. *)
Theorem can_serialize_false_means_absent st v :
  reachable _issubclass st ->
  fst (can_serialize _issubclass (type_of v) None st) = Ok false ->
  fst (serialize _issubclass v false st) = Ok VNone.
Proof.
  intros Hr. pose proof (reachable_coherent _ _ Hr) as Hc.
  rewrite can_serialize_value by exact Hc. intros [= Hcan].
  apply orb_false_iff in Hcan. destruct Hcan as [Hfn Hdc].
  rewrite andb_true_r in Hdc.
  destruct (get_serializer_wrapped _issubclass st (type_of v)) as [fn|] eqn:Hres;
    [discriminate|].
  rewrite (serialize_not_found _issubclass v false st Hc Hres).
  rewrite (not_dataclass_instance v Hdc). reflexivity.
Qed.

(** X18. When [can_serialize(type(value))] answers [True],
    [serialize(value)] converts the value: it returns what the resolved
    function returns (or raises), or, when no function resolves, the
    dictionary of the dataclass fields. *)
Theorem can_serialize_true_means_converted st v :
  reachable _issubclass st ->
  fst (can_serialize _issubclass (type_of v) None st) = Ok true ->
  (exists fn,
      fst (get_serializer _issubclass (type_of v) st) = Ok (Some fn)
      /\ fst (serialize _issubclass v false st) = call fn v)
  \/ (fst (get_serializer _issubclass (type_of v) st) = Ok None
      /\ fst (serialize _issubclass v false st)
         = Ok (VDict (dict_of_items (dataclass_items v)))).
Proof.
  intros Hr. pose proof (reachable_coherent _ _ Hr) as Hc.
  rewrite can_serialize_value, get_serializer_coherent by exact Hc. intros [= Hcan].
  destruct (get_serializer_wrapped _issubclass st (type_of v)) as [fn|] eqn:Hres.
  - left. exists fn. split; [reflexivity|].
    rewrite (serialize_found _issubclass v false st fn Hc Hres).
    destruct (call fn v); reflexivity.
  - right. split; [reflexivity|]. cbn in Hcan. rewrite andb_true_r in Hcan.
    rewrite (serialize_not_found _issubclass v false st Hc Hres).
    rewrite (dataclass_instance v Hcan). reflexivity.
Qed.

(** X19. When [has_serializer(type(value), into_type)] answers [True],
    [serialize(value, get_type=True)] returns the pair of the resolved
    function's result and [into_type]. *)
Theorem has_serializer_into_pairs st v into_type :
  reachable _issubclass st ->
  fst (has_serializer _issubclass (type_of v) (Some into_type) st) = Ok true ->
  exists fn,
    fst (get_serializer _issubclass (type_of v) st) = Ok (Some fn)
    /\ fst (serialize _issubclass v true st)
       = match call fn v with
         | Ok serialized => Ok (VTuple [serialized; VType into_type])
         | Raise e => Raise e
         end.
Proof.
  intros Hr. pose proof (reachable_coherent _ _ Hr) as Hc.
  rewrite has_serializer_value, get_serializer_coherent by exact Hc. intros [= Hhas].
  destruct (get_serializer_wrapped _issubclass st (type_of v)) as [fn|] eqn:Hres;
    [|discriminate].
  exists fn. split; [reflexivity|].
  rewrite (serialize_found _issubclass v true st fn Hc Hres).
  apply bool_decide_eq_true_1 in Hhas. rewrite Hhas. reflexivity.
Qed.

(** X20. [can_serialize] accepts a dataclass with no function only as a
    dictionary: for a type that is unregistered, [can_serialize(type_,
    into_type)] is [True] exactly when the type is a dataclass and
    [into_type] is [None] or [dict]. *)
Theorem can_serialize_unregistered st type_ into_type :
  reachable _issubclass st ->
  unregistered _issubclass st type_ ->
  fst (can_serialize _issubclass type_ into_type st)
  = Ok (has_dataclass_fields type_
        && match into_type with
           | None => true
           | Some into_type => bool_decide (into_type = TDict)
           end).
Proof.
  intros Hr Hun. rewrite can_serialize_value by apply reachable_coherent, Hr.
  rewrite (unregistered_resolve _ _ _ Hun). reflexivity.
Qed.

End PredicateFacts.

(** ** The further properties on the sample registry *)

Lemma kennel_reachable : reachable Sample.issubclass Sample.kennel.
Proof.
  unfold Sample.kennel, Sample.register.
  do 2 apply reach_wrapper. apply reach_initial.
Qed.

Lemma zoo_retyped_reachable : reachable Sample.issubclass Sample.zoo_retyped.
Proof. apply reach_wrapper, zoo_reachable. Qed.

Lemma zoo_labrador_reachable : reachable Sample.issubclass Sample.zoo_labrador.
Proof. apply reach_wrapper, zoo_reachable. Qed.

Lemma get_serializer_type_exact_match_witness :
  fst (get_serializer_type Sample.issubclass Sample.Pet Sample.zoo_retyped)
  = Ok (Some TDict).
Proof.
  apply (get_serializer_type_exact_match Sample.issubclass Sample.zoo_retyped
           Sample.Pet TDict).
  - exact zoo_retyped_reachable.
  - reflexivity.
Defined.

(** [Labrador] has no declared output type; of its ancestors [Animal]
    ([str]) and [Pet] ([dict]), [Pet] was inserted last. *)
Lemma get_serializer_type_latest_ancestor_witness :
  fst (get_serializer_type Sample.issubclass Sample.Labrador Sample.zoo_retyped)
  = Ok (Some TDict).
Proof.
  apply (get_serializer_type_latest_ancestor Sample.issubclass Sample.zoo_retyped
           Sample.Labrador Sample.Pet TDict [(Sample.Animal, TStr)] []).
  - exact zoo_retyped_reachable.
  - reflexivity.
  - reflexivity.
  - reflexivity.
  - intros C tC [].
Defined.

Lemma get_serializer_none_iff_unregistered_witness :
  fst (get_serializer Sample.issubclass TInt Sample.zoo) = Ok None
  <-> unregistered Sample.issubclass Sample.zoo TInt.
Proof.
  apply (get_serializer_none_iff_unregistered Sample.issubclass Sample.zoo TInt).
  exact zoo_reachable.
Defined.

Lemma query_order_irrelevant_witness :
  fst (get_serializer Sample.issubclass Sample.Labrador
         (snd (get_serializer Sample.issubclass Sample.Dog Sample.zoo)))
  = fst (get_serializer Sample.issubclass Sample.Labrador Sample.zoo).
Proof.
  apply (query_order_irrelevant Sample.issubclass Sample.zoo Sample.Labrador
           Sample.Dog Sample.rex true).
  exact zoo_reachable.
Defined.

(** [def serialize_plain(value) -> str] has one parameter, without
    annotation: it is refused. *)
Lemma wrapper_refuses_unless_one_annotation_witness :
  wrapper None None None Sample.serialize_plain Sample.zoo
  = (Raise (ValueError "Serializer must take a single argument."), Sample.zoo).
Proof.
  apply (wrapper_refuses_unless_one_annotation None None None
           Sample.serialize_plain Sample.zoo).
  - repeat constructor; cbn; intuition discriminate.
  - cbn. intuition discriminate.
  - cbn. discriminate.
Defined.

(** [def serialize_tagged(tag, value: Pet, sep) -> dict] is stored under
    [Pet], its second parameter's annotation, and under no other key. *)
Lemma registered_type_is_the_annotation_witness :
  SERIALIZERS Sample.zoo_retyped
  = od_set (SERIALIZERS Sample.zoo) Sample.Pet Sample.serialize_tagged
  /\ od_get (SERIALIZERS Sample.zoo_retyped) Sample.Pet
     = Some Sample.serialize_tagged.
Proof.
  apply (registered_type_is_the_annotation None (Some true) None
           Sample.serialize_tagged Sample.zoo Sample.serialize_tagged
           Sample.zoo_retyped "value" Sample.Pet).
  - repeat constructor; cbn; intuition discriminate.
  - cbn. intuition discriminate.
  - reflexivity.
  - reflexivity.
Defined.

(** [get_serializer(Dog)] is memoised, then a second function for [Dog] is
    refused with [overwrite=False]: the state after the call, memo
    included, is the state before it. *)
Lemma failed_registration_changes_nothing_witness :
  fst (wrapper None (Some false) None Sample.kennel_serialize_dog
         Sample.zoo_dog_queried)
  = Raise (ValueError
             (overwrite_message Sample.Dog Sample.serialize_dog
                Sample.kennel_serialize_dog))
  /\ SERIALIZERS (snd (wrapper None (Some false) None Sample.kennel_serialize_dog
                         Sample.zoo_dog_queried))
     = SERIALIZERS Sample.zoo_dog_queried
  /\ get_serializer_cache
       (snd (wrapper None (Some false) None Sample.kennel_serialize_dog
               Sample.zoo_dog_queried))
     = [(Sample.Dog, Some Sample.serialize_dog)].
Proof.
  split; [reflexivity|].
  pose proof (failed_registration_changes_nothing
                None (Some false) None Sample.kennel_serialize_dog
                Sample.zoo_dog_queried
                (ValueError
                   (overwrite_message Sample.Dog Sample.serialize_dog
                      Sample.kennel_serialize_dog))
                (snd (wrapper None (Some false) None Sample.kennel_serialize_dog
                        Sample.zoo_dog_queried))
                eq_refl) as (Hs & _ & Hmemo & _).
  split; [exact Hs|exact Hmemo].
Defined.

(** [Labrador] has no entry: registering with [overwrite=False]
    succeeds. *)
Lemma fresh_type_registration_witness :
  exists st',
    wrapper None (Some false) None Sample.serialize_labrador Sample.zoo
    = (Ok Sample.serialize_labrador, st')
    /\ console st' = console Sample.zoo
    /\ SERIALIZERS st'
       = SERIALIZERS Sample.zoo ++ [(Sample.Labrador, Sample.serialize_labrador)].
Proof.
  apply (fresh_type_registration None (Some false) None Sample.serialize_labrador
           Sample.zoo Sample.Labrador).
  - reflexivity.
  - reflexivity.
Defined.

Lemma memos_bounded_witness :
  length (get_serializer_cache Sample.zoo_queried) <= 128
  /\ length (get_serializer_type_cache Sample.zoo_queried) <= 128.
Proof.
  apply (memos_bounded Sample.issubclass Sample.zoo_queried).
  exact zoo_queried_reachable.
Defined.

Lemma output_type_implies_function_witness :
  exists fn,
    fst (get_serializer Sample.issubclass Sample.Labrador Sample.zoo) = Ok (Some fn).
Proof.
  apply (output_type_implies_function Sample.issubclass Sample.zoo Sample.Labrador
           TStr).
  - exact zoo_reachable.
  - reflexivity.
Defined.

Lemma register_then_resolve_witness :
  Sample.serialize_labrador = Sample.serialize_labrador
  /\ fst (get_serializer Sample.issubclass Sample.Labrador Sample.zoo_labrador)
     = Ok (Some Sample.serialize_labrador)
  /\ forall v, type_of v = Sample.Labrador ->
               fst (serialize Sample.issubclass v false Sample.zoo_labrador)
               = call Sample.serialize_labrador v.
Proof.
  apply (register_then_resolve Sample.issubclass (Some TStr) None None
           Sample.serialize_labrador Sample.zoo Sample.serialize_labrador
           Sample.zoo_labrador Sample.Labrador).
  - exact zoo_reachable.
  - reflexivity.
  - reflexivity.
Defined.

(** With [Animal] and [Dog] registered, [Pet] is registered last: a
    [Labrador], a subclass of all three, is from then on served by the
    function for [Pet]. *)
Lemma new_ancestor_shadows_older_witness :
  fst (get_serializer Sample.issubclass Sample.Labrador
         (snd (wrapper None None None Sample.serialize_pet Sample.kennel)))
  = Ok (Some Sample.serialize_pet).
Proof.
  apply (new_ancestor_shadows_older Sample.issubclass None None None
           Sample.serialize_pet Sample.kennel Sample.serialize_pet
           (snd (wrapper None None None Sample.serialize_pet Sample.kennel))
           Sample.Pet Sample.Labrador).
  - exact kennel_reachable.
  - reflexivity.
  - reflexivity.
  - reflexivity.
  - reflexivity.
  - reflexivity.
Defined.

(** Replacing the function for [Pet] changes nothing for [Dog]. *)
Lemma registration_leaves_unrelated_types_witness :
  fst (get_serializer Sample.issubclass Sample.Dog Sample.zoo_retyped)
  = fst (get_serializer Sample.issubclass Sample.Dog Sample.zoo)
  /\ fst (get_serializer_type Sample.issubclass Sample.Dog Sample.zoo_retyped)
     = fst (get_serializer_type Sample.issubclass Sample.Dog Sample.zoo).
Proof.
  apply (registration_leaves_unrelated_types Sample.issubclass None (Some true) None
           Sample.serialize_tagged Sample.zoo Sample.serialize_tagged
           Sample.zoo_retyped Sample.Pet Sample.Dog).
  - exact zoo_reachable.
  - reflexivity.
  - reflexivity.
  - discriminate.
  - reflexivity.
Defined.

(** [kennel.serialize_pet] declares no output type and replaces
    [zoo.serialize_pet], declared [-> str]: [Pet] keeps [str]. *)
Lemma untyped_registration_keeps_output_types_witness :
  fst (get_serializer_type Sample.issubclass Sample.Pet
         (snd (wrapper None (Some true) None Sample.kennel_serialize_pet Sample.zoo)))
  = fst (get_serializer_type Sample.issubclass Sample.Pet Sample.zoo).
Proof.
  apply (untyped_registration_keeps_output_types Sample.issubclass (Some true) None
           Sample.kennel_serialize_pet Sample.zoo Sample.kennel_serialize_pet).
  - exact zoo_reachable.
  - reflexivity.
  - reflexivity.
  - cbn. intuition discriminate.
Defined.

(** [serialize_pet] is annotated [-> str] and registered with [to=dict]. *)
Lemma explicit_to_wins_witness :
  fst (get_serializer_type Sample.issubclass Sample.Pet
         (snd (wrapper (Some TDict) None None Sample.serialize_pet Sample.zoo)))
  = Ok (Some TDict).
Proof.
  apply (explicit_to_wins Sample.issubclass TDict None None Sample.serialize_pet
           Sample.zoo Sample.serialize_pet
           (snd (wrapper (Some TDict) None None Sample.serialize_pet Sample.zoo))
           Sample.Pet).
  - exact zoo_reachable.
  - reflexivity.
  - reflexivity.
Defined.

Lemma can_serialize_false_means_absent_witness :
  fst (serialize Sample.issubclass (VInt 3) false Sample.zoo) = Ok VNone.
Proof.
  apply (can_serialize_false_means_absent Sample.issubclass Sample.zoo (VInt 3)).
  - exact zoo_reachable.
  - reflexivity.
Defined.

Lemma can_serialize_true_means_converted_witness :
  (exists fn,
      fst (get_serializer Sample.issubclass (type_of Sample.point) Sample.zoo)
      = Ok (Some fn)
      /\ fst (serialize Sample.issubclass Sample.point false Sample.zoo)
         = call fn Sample.point)
  \/ (fst (get_serializer Sample.issubclass (type_of Sample.point) Sample.zoo)
      = Ok None
      /\ fst (serialize Sample.issubclass Sample.point false Sample.zoo)
         = Ok (VDict (dict_of_items (dataclass_items Sample.point)))).
Proof.
  apply (can_serialize_true_means_converted Sample.issubclass Sample.zoo Sample.point).
  - exact zoo_reachable.
  - reflexivity.
Defined.

Lemma has_serializer_into_pairs_witness :
  exists fn,
    fst (get_serializer Sample.issubclass (type_of Sample.rex) Sample.zoo_labrador)
    = Ok (Some fn)
    /\ fst (serialize Sample.issubclass Sample.rex true Sample.zoo_labrador)
       = match call fn Sample.rex with
         | Ok serialized => Ok (VTuple [serialized; VType TStr])
         | Raise e => Raise e
         end.
Proof.
  apply (has_serializer_into_pairs Sample.issubclass Sample.zoo_labrador Sample.rex
           TStr).
  - exact zoo_labrador_reachable.
  - reflexivity.
Defined.

(** The dataclass [Point] has no function: it can be serialized into a
    [dict], not into a [str]. *)
Lemma can_serialize_unregistered_witness :
  fst (can_serialize Sample.issubclass Sample.Point (Some TDict) Sample.zoo) = Ok true
  /\ fst (can_serialize Sample.issubclass Sample.Point (Some TStr) Sample.zoo)
     = Ok false.
Proof.
  split.
  - apply (can_serialize_unregistered Sample.issubclass Sample.zoo Sample.Point
             (Some TDict)).
    + exact zoo_reachable.
    + apply unregistered_check; reflexivity.
  - apply (can_serialize_unregistered Sample.issubclass Sample.zoo Sample.Point
             (Some TStr)).
    + exact zoo_reachable.
    + apply unregistered_check; reflexivity.
Defined.
